(** * Local Food Wastage Management System: store, data access and views

    A shallow embedding of [local_food_wastage_app_fixed.py].  The script is a
    Streamlit page over one SQLite file; it is embedded as Rocq functions in a
    state-and-exception monad over a [world] made of the file system (the
    store file and the data directory) and the ordered trace of connection
    and rendering events.

    The SQLite engine, pandas and Streamlit are libraries outside the
    repository.  They are modelled only as far as the script drives them:
    the SQL dialect is the fragment made of the statement shapes the script
    issues plus [DROP TABLE]; text outside that fragment is rejected by
    [prepare] the way SQLite rejects text outside its grammar.  SQLite's REAL
    and BLOB storage classes, its hidden rowid on tables without an integer
    primary key, and the internal [sqlite_sequence] table (kept here as the
    [db_sequence] counter map) are outside the model. *)

From Stdlib Require Import ZArith String Ascii List DecimalString Lia.
From stdpp Require Import gmap strings list.
Import ListNotations.

Local Open Scope string_scope.
Local Open Scope Z_scope.

#[global] Arguments String.append !s1 s2 : simpl nomatch.

(** ** Text helpers: case folding and tokens *)

Module Text.

Definition in_range (lo hi c : ascii) : bool :=
  (N.leb (N_of_ascii lo) (N_of_ascii c) && N.leb (N_of_ascii c) (N_of_ascii hi))%bool.

Definition is_upper (c : ascii) : bool := in_range "A" "Z" c.
Definition is_lower (c : ascii) : bool := in_range "a" "z" c.
Definition is_digit (c : ascii) : bool := in_range "0" "9" c.

Definition lower_char (c : ascii) : ascii :=
  if is_upper c then ascii_of_N (N_of_ascii c + 32) else c.

Fixpoint lower (s : string) : string :=
  match s with
  | EmptyString => EmptyString
  | String c s' => String (lower_char c) (lower s')
  end.

(** SQLite compares identifiers and keywords without regard to ASCII case. *)
Definition eqb_ci (a b : string) : bool := String.eqb (lower a) (lower b).

Definition is_space (c : ascii) : bool :=
  existsb (Ascii.eqb c) [" "; "009"; "010"; "012"; "013"]%char.

Definition is_punct (c : ascii) : bool :=
  existsb (Ascii.eqb c) ["("; ")"; ","; "*"; ";"; "?"]%char.

Inductive token :=
| TWord (w : string)
| TSym (c : ascii).

Definition flush (w : string) (ts : list token) : list token :=
  match w with
  | EmptyString => ts
  | _ => TWord w :: ts
  end.

(** [scan w s]: the tokens of [s], where [w] is the word read so far. *)
Fixpoint scan (w : string) (s : string) : list token :=
  match s with
  | EmptyString => flush w []
  | String c s' =>
      if is_space c then flush w (scan EmptyString s')
      else if is_punct c then flush w (TSym c :: scan EmptyString s')
      else scan (w +:+ String c EmptyString) s'
  end.

Definition tokenize (s : string) : list token := scan EmptyString s.

Definition is_ident_start (c : ascii) : bool :=
  (is_upper c || is_lower c || Ascii.eqb c "_")%bool.

Definition is_ident_char (c : ascii) : bool :=
  (is_ident_start c || is_digit c)%bool.

Fixpoint all_chars (p : ascii -> bool) (s : string) : bool :=
  match s with
  | EmptyString => true
  | String c s' => (p c && all_chars p s')%bool
  end.

(** Words SQLite never accepts as a bare identifier. *)
Definition reserved : list string :=
  ["select"; "distinct"; "from"; "where"; "group"; "order"; "having"; "limit";
   "as"; "create"; "table"; "not"; "exists"; "drop"; "insert"; "into";
   "values"; "primary"; "autoincrement"; "and"; "or"; "null"; "delete";
   "update"; "set"; "join"; "on"; "union"; "index"; "default"; "unique"].

Definition is_identifier (w : string) : bool :=
  match w with
  | EmptyString => false
  | String c _ =>
      (is_ident_start c && all_chars is_ident_char w
       && negb (existsb (String.eqb (lower w)) reserved))%bool
  end.

Definition kw (k : string) (t : token) : bool :=
  match t with
  | TWord w => String.eqb (lower w) k
  | TSym _ => false
  end.

Definition ident_of (t : token) : option string :=
  match t with
  | TWord w => if is_identifier w then Some w else None
  | TSym _ => None
  end.

Definition is_sym (c : ascii) (t : token) : bool :=
  match t with
  | TSym c' => Ascii.eqb c c'
  | TWord _ => false
  end.

(** Groups of tokens between top-level commas. *)
Fixpoint split_commas (ts : list token) : list (list token) :=
  match ts with
  | [] => [[]]
  | t :: ts' =>
      if is_sym "," t then [] :: split_commas ts'
      else match split_commas ts' with
           | g :: gs => (t :: g) :: gs
           | [] => [[t]]
           end
  end.

Fixpoint strip_last_semicolon (ts : list token) : list token :=
  match ts with
  | [] => []
  | [t] => if is_sym ";" t then [] else [t]
  | t :: ts' => t :: strip_last_semicolon ts'
  end.

(** Decimal text of an integer, as Python's [str] and SQLite's integer to
    text conversion print it. *)
Definition decimal (z : Z) : string := NilZero.string_of_int (Z.to_int z).

(** The integer a text denotes when it is an optionally signed digit string. *)
Definition integer_literal (s : string) : option Z :=
  match NilZero.int_of_string s with
  | Some i => Some (Z.of_int i)
  | None => None
  end.

(** A natural number in at least [width] decimal digits, zero padded. *)
Fixpoint zeros (n : nat) : string :=
  match n with
  | O => EmptyString
  | S n' => String "0" (zeros n')
  end.

Definition padded (width : nat) (n : nat) : string :=
  let d := decimal (Z.of_nat n) in
  zeros (width - String.length d) +:+ d.

End Text.

(** ** The store: SQLite values, tables and the statements the script issues *)

Module Sqlite.
Import Text.

Inductive value :=
| VNull
| VInt (z : Z)
| VText (s : string).

Definition row := list value.

Definition value_eqb (a b : value) : bool :=
  match a, b with
  | VNull, VNull => true
  | VInt x, VInt y => Z.eqb x y
  | VText x, VText y => String.eqb x y
  | _, _ => false
  end.

(** SQLite's sort order: NULL, then integers, then text in byte order. *)
Definition value_leb (a b : value) : bool :=
  match a, b with
  | VNull, _ => true
  | VInt _, VNull => false
  | VInt x, VInt y => Z.leb x y
  | VInt _, VText _ => true
  | VText x, VText y =>
      match String.compare x y with Gt => false | _ => true end
  | VText _, _ => false
  end.

Inductive affinity := INTEGER | TEXT.

(** [col_rowid = Some a]: the column is [INTEGER PRIMARY KEY], with
    [AUTOINCREMENT] when [a] is true; such a column is the row's identifier
    and the engine fills it in when an insert leaves it out. *)
Record column := {
  col_name : string;
  col_affinity : affinity;
  col_rowid : option bool
}.

Record table := {
  tbl_name : string;
  tbl_columns : list column;
  tbl_rows : list row
}.

(** Tables are keyed by their case-folded name.  [db_sequence] is the
    largest identifier ever given out per AUTOINCREMENT table. *)
Record database := {
  db_tables : gmap string table;
  db_sequence : gmap string Z
}.

Definition empty_db : database := {| db_tables := ∅; db_sequence := ∅ |}.

Definition find_table (db : database) (name : string) : option table :=
  db_tables db !! lower name.

Fixpoint column_index (cols : list column) (name : string) : option nat :=
  match cols with
  | [] => None
  | c :: cols' =>
      if eqb_ci (col_name c) name then Some O
      else match column_index cols' name with
           | Some i => Some (S i)
           | None => None
           end
  end.

Definition field (i : nat) (r : row) : value := nth i r VNull.

Inductive stmt :=
| CreateTable (if_not_exists : bool) (name : string) (cols : list column)
| DropTable (name : string)
| SelectStar (table : string)
| SelectDistinct (col : string) (table : string)
| SelectSumBy (key : string) (summed : string) (alias : string) (table : string)
| InsertInto (table : string) (cols : list string) (placeholders : nat).

(** *** Statement text to statement *)

Definition parse_affinity (t : token) : option affinity :=
  if kw "integer" t then Some INTEGER
  else if kw "text" t then Some TEXT
  else None.

Definition parse_column (ts : list token) : option column :=
  match ts with
  | [n; ty] =>
      match ident_of n, parse_affinity ty with
      | Some n', Some a => Some {| col_name := n'; col_affinity := a; col_rowid := None |}
      | _, _ => None
      end
  | [n; ty; p; k] =>
      match ident_of n with
      | Some n' =>
          if (kw "integer" ty && kw "primary" p && kw "key" k)%bool
          then Some {| col_name := n'; col_affinity := INTEGER; col_rowid := Some false |}
          else None
      | None => None
      end
  | [n; ty; p; k; a] =>
      match ident_of n with
      | Some n' =>
          if (kw "integer" ty && kw "primary" p && kw "key" k && kw "autoincrement" a)%bool
          then Some {| col_name := n'; col_affinity := INTEGER; col_rowid := Some true |}
          else None
      | None => None
      end
  | _ => None
  end.

Fixpoint sequence_options {A : Type} (l : list (option A)) : option (list A) :=
  match l with
  | [] => Some []
  | Some x :: l' =>
      match sequence_options l' with
      | Some xs => Some (x :: xs)
      | None => None
      end
  | None :: _ => None
  end.

(** The tokens between a leading "(" and the closing ")" that ends the list. *)
Definition parenthesised (ts : list token) : option (list token) :=
  match ts with
  | t :: ts' =>
      if is_sym "(" t then
        match rev ts' with
        | c :: inner => if is_sym ")" c then Some (rev inner) else None
        | [] => None
        end
      else None
  | [] => None
  end.

Definition parse_create (ts : list token) : option stmt :=
  match ts with
  | c :: t :: i :: n :: e :: name :: body =>
      if (kw "create" c && kw "table" t && kw "if" i && kw "not" n && kw "exists" e)%bool
      then match ident_of name, parenthesised body with
           | Some name', Some inner =>
               match sequence_options (map parse_column (split_commas inner)) with
               | Some cols => Some (CreateTable true name' cols)
               | None => None
               end
           | _, _ => None
           end
      else None
  | _ => None
  end.

Definition parse_drop (ts : list token) : option stmt :=
  match ts with
  | [d; t; name] =>
      if (kw "drop" d && kw "table" t)%bool
      then match ident_of name with
           | Some name' => Some (DropTable name')
           | None => None
           end
      else None
  | _ => None
  end.

Definition parse_select (ts : list token) : option stmt :=
  match ts with
  | [s; star; f; t] =>
      if (kw "select" s && is_sym "*" star && kw "from" f)%bool
      then match ident_of t with
           | Some t' => Some (SelectStar t')
           | None => None
           end
      else None
  | [s; d; c; f; t] =>
      if (kw "select" s && kw "distinct" d && kw "from" f)%bool
      then match ident_of c, ident_of t with
           | Some c', Some t' => Some (SelectDistinct c' t')
           | _, _ => None
           end
      else None
  | [s; k; comma; sm; lp; q; rp; a; al; f; t; g; b; gk] =>
      if (kw "select" s && is_sym "," comma && kw "sum" sm && is_sym "(" lp
          && is_sym ")" rp && kw "as" a && kw "from" f && kw "group" g
          && kw "by" b)%bool
      then match ident_of k, ident_of q, ident_of al, ident_of t, ident_of gk with
           | Some k', Some q', Some al', Some t', Some gk' =>
               if eqb_ci k' gk' then Some (SelectSumBy k' q' al' t') else None
           | _, _, _, _, _ => None
           end
      else None
  | _ => None
  end.

(** [ts] up to the first ")" and what follows it. *)
Fixpoint until_close (ts : list token) : option (list token * list token) :=
  match ts with
  | [] => None
  | t :: ts' =>
      if is_sym ")" t then Some ([], ts')
      else match until_close ts' with
           | Some (a, b) => Some (t :: a, b)
           | None => None
           end
  end.

Definition parse_placeholder (ts : list token) : option unit :=
  match ts with
  | [t] => if is_sym "?" t then Some tt else None
  | _ => None
  end.

Definition parse_name (ts : list token) : option string :=
  match ts with
  | [t] => ident_of t
  | _ => None
  end.

Definition parse_insert (ts : list token) : option stmt :=
  match ts with
  | i :: into :: name :: lp :: rest =>
      if (kw "insert" i && kw "into" into && is_sym "(" lp)%bool
      then match ident_of name, until_close rest with
           | Some name', Some (cols, v :: vals) =>
               if kw "values" v
               then match sequence_options (map parse_name (split_commas cols)),
                          parenthesised vals with
                    | Some cols', Some marks =>
                        match sequence_options (map parse_placeholder (split_commas marks)) with
                        | Some ms => Some (InsertInto name' cols' (length ms))
                        | None => None
                        end
                    | _, _ => None
                    end
               else None
           | _, _ => None
           end
      else None
  | _ => None
  end.

(** [prepare text]: the statement a text denotes, [None] on a syntax error. *)
Definition prepare (text : string) : option stmt :=
  let ts := strip_last_semicolon (tokenize text) in
  match ts with
  | [] => None
  | t :: _ =>
      if kw "select" t then parse_select ts
      else if kw "create" t then parse_create ts
      else if kw "drop" t then parse_drop ts
      else if kw "insert" t then parse_insert ts
      else None
  end.

(** *** Running a statement *)

Inductive sqlite_error :=
| NoSuchTable (name : string)
| NoSuchColumn (name : string)
| NoColumnNamed (table : string) (name : string)
| TableExists (name : string)
| ManyPrimaryKeys (name : string)
| ValuesMismatch (nvalues ncolumns : nat)
| UniqueFailed (table : string) (column : string)
| DatatypeMismatch.

Definition nat_text (n : nat) : string := decimal (Z.of_nat n).

Definition error_message (e : sqlite_error) : string :=
  match e with
  | NoSuchTable n => "no such table: " +:+ n
  | NoSuchColumn n => "no such column: " +:+ n
  | NoColumnNamed t n => "table " +:+ t +:+ " has no column named " +:+ n
  | TableExists n => "table " +:+ n +:+ " already exists"
  | ManyPrimaryKeys n => "table " +:+ n +:+ " has more than one primary key"
  | ValuesMismatch v c => nat_text v +:+ " values for " +:+ nat_text c +:+ " columns"
  | UniqueFailed t c => "UNIQUE constraint failed: " +:+ t +:+ "." +:+ c
  | DatatypeMismatch => "datatype mismatch"
  end.

Inductive outcome :=
| Failed (e : sqlite_error)
| Changed (db' : database)
| Rows (names : list string) (rows : list row).

(** Number of "?" marks a statement expects values for. *)
Definition placeholders (s : stmt) : nat :=
  match s with
  | InsertInto _ _ n => n
  | _ => O
  end.

(** Statements that change the schema run outside any transaction and are
    durable at once; [INSERT] opens a transaction that lasts until commit. *)
Definition opens_transaction (s : stmt) : bool :=
  match s with
  | InsertInto _ _ _ => true
  | _ => false
  end.

Definition apply_affinity (a : affinity) (v : value) : value :=
  match a, v with
  | INTEGER, VText s =>
      match integer_literal s with
      | Some z => VInt z
      | None => v
      end
  | TEXT, VInt z => VText (decimal z)
  | _, _ => v
  end.

(** Values of a column in first-seen order, each once. *)
Fixpoint distinct (l : list value) : list value :=
  match l with
  | [] => []
  | v :: l' => v :: List.filter (fun x => negb (value_eqb v x)) (distinct l')
  end.

Fixpoint insert_sorted (v : value) (l : list value) : list value :=
  match l with
  | [] => [v]
  | x :: l' => if value_leb v x then v :: l else x :: insert_sorted v l'
  end.

Definition sort_values (l : list value) : list value :=
  fold_right insert_sorted [] l.

Definition is_null (v : value) : bool :=
  match v with
  | VNull => true
  | _ => false
  end.

(** [SUM]: NULL when the group has no non-NULL value, else the total of its
    integers (text that is not numeric counts as zero). *)
Definition sum_values (vs : list value) : value :=
  if forallb is_null vs then VNull
  else VInt (fold_right (fun v acc => match v with VInt z => z + acc | _ => acc end) 0 vs).

Definition group_row (ki qi : nat) (rows : list row) (key : value) : row :=
  [key; sum_values (map (field qi) (List.filter (fun r => value_eqb key (field ki r)) rows))].

Fixpoint rowid_column (cols : list column) : option (nat * bool) :=
  match cols with
  | [] => None
  | c :: cols' =>
      match col_rowid c with
      | Some a => Some (O, a)
      | None =>
          match rowid_column cols' with
          | Some (i, a) => Some (S i, a)
          | None => None
          end
      end
  end.

Definition primary_keys (cols : list column) : nat :=
  length (List.filter (fun c => match col_rowid c with Some _ => true | None => false end) cols).

Fixpoint largest_rowid (k : nat) (rows : list row) : option Z :=
  match rows with
  | [] => None
  | r :: rows' =>
      match field k r, largest_rowid k rows' with
      | VInt z, Some m => Some (Z.max z m)
      | VInt z, None => Some z
      | _, m => m
      end
  end.

Definition next_rowid (k : nat) (rows : list row) : Z :=
  match largest_rowid k rows with
  | Some m => m + 1
  | None => 1
  end.

Definition rowid_used (k : nat) (rows : list row) (z : Z) : bool :=
  existsb (fun r => value_eqb (VInt z) (field k r)) rows.

(** Rows of a table with an integer primary key are kept in key order. *)
Fixpoint place_row (k : nat) (z : Z) (r : row) (rows : list row) : list row :=
  match rows with
  | [] => [r]
  | x :: rows' =>
      match field k x with
      | VInt y => if Z.ltb z y then r :: rows else x :: place_row k z r rows'
      | _ => x :: place_row k z r rows'
      end
  end.

Fixpoint position (names : list string) (name : string) : option nat :=
  match names with
  | [] => None
  | n :: names' =>
      if eqb_ci n name then Some O
      else match position names' name with
           | Some i => Some (S i)
           | None => None
           end
  end.

(** What an insert supplies for a table column: the bound value of the
    column's place in the statement, or NULL when the statement leaves the
    column out (no column of this script has a default). *)
Definition supplied (names : list string) (params : list value) (c : column) : value :=
  match position names (col_name c) with
  | Some i => apply_affinity (col_affinity c) (nth i params VNull)
  | None => VNull
  end.

Definition with_rows (t : table) (rows : list row) : table :=
  {| tbl_name := tbl_name t; tbl_columns := tbl_columns t; tbl_rows := rows |}.

Definition store_table (db : database) (t : table) : database :=
  {| db_tables := <[lower (tbl_name t) := t]> (db_tables db);
     db_sequence := db_sequence db |}.

Definition note_sequence (db : database) (t : table) (autoinc : bool) (z : Z) : database :=
  if autoinc
  then {| db_tables := db_tables db;
          db_sequence := <[lower (tbl_name t) := Z.max z (default 0 (db_sequence db !! lower (tbl_name t)))]>
                           (db_sequence db) |}
  else db.

Definition insert_row (db : database) (t : table) (names : list string) (params : list value) : outcome :=
  let r := map (supplied names params) (tbl_columns t) in
  match rowid_column (tbl_columns t) with
  | None => Changed (store_table db (with_rows t (tbl_rows t ++ [r])))
  | Some (k, autoinc) =>
      match field k r with
      | VNull =>
          let seq := default 0 (db_sequence db !! lower (tbl_name t)) in
          let id := if autoinc then Z.max (next_rowid k (tbl_rows t)) (seq + 1)
                    else next_rowid k (tbl_rows t) in
          Changed (note_sequence
                     (store_table db (with_rows t (tbl_rows t ++ [<[k := VInt id]> r])))
                     t autoinc id)
      | VInt z =>
          if rowid_used k (tbl_rows t) z
          then Failed (UniqueFailed (tbl_name t) (col_name (nth k (tbl_columns t)
                         {| col_name := ""; col_affinity := INTEGER; col_rowid := None |})))
          else Changed (note_sequence
                          (store_table db (with_rows t (place_row k z r (tbl_rows t))))
                          t autoinc z)
      | VText _ => Failed DatatypeMismatch
      end
  end.

Fixpoint first_missing (cols : list column) (names : list string) : option string :=
  match names with
  | [] => None
  | n :: names' =>
      match column_index cols n with
      | Some _ => first_missing cols names'
      | None => Some n
      end
  end.

(** [compile db s]: the checks SQLite makes when it prepares [s] against the
    schema of [db], then the prepared statement as a function of the values
    bound to its placeholders. *)
Definition compile (db : database) (s : stmt) : sqlite_error + (list value -> outcome) :=
  match s with
  | CreateTable if_not_exists name cols =>
      match find_table db name with
      | Some _ => if if_not_exists then inr (fun _ => Changed db) else inl (TableExists name)
      | None =>
          if (1 <? primary_keys cols)%nat then inl (ManyPrimaryKeys name)
          else inr (fun _ => Changed (store_table db
                      {| tbl_name := name; tbl_columns := cols; tbl_rows := [] |}))
      end
  | DropTable name =>
      match find_table db name with
      | Some _ =>
          inr (fun _ => Changed {| db_tables := delete (lower name) (db_tables db);
                                   db_sequence := delete (lower name) (db_sequence db) |})
      | None => inl (NoSuchTable name)
      end
  | SelectStar name =>
      match find_table db name with
      | Some t => inr (fun _ => Rows (map col_name (tbl_columns t)) (tbl_rows t))
      | None => inl (NoSuchTable name)
      end
  | SelectDistinct col name =>
      match find_table db name with
      | Some t =>
          match column_index (tbl_columns t) col with
          | Some i =>
              inr (fun _ => Rows [col_name (nth i (tbl_columns t)
                                    {| col_name := col; col_affinity := TEXT; col_rowid := None |})]
                                 (map (fun v => [v]) (distinct (map (field i) (tbl_rows t)))))
          | None => inl (NoSuchColumn col)
          end
      | None => inl (NoSuchTable name)
      end
  | SelectSumBy key summed alias name =>
      match find_table db name with
      | Some t =>
          match column_index (tbl_columns t) key, column_index (tbl_columns t) summed with
          | Some ki, Some qi =>
              inr (fun _ => Rows [col_name (nth ki (tbl_columns t)
                                    {| col_name := key; col_affinity := TEXT; col_rowid := None |});
                                  alias]
                                 (map (group_row ki qi (tbl_rows t))
                                      (sort_values (distinct (map (field ki) (tbl_rows t))))))
          | None, _ => inl (NoSuchColumn key)
          | _, None => inl (NoSuchColumn summed)
          end
      | None => inl (NoSuchTable name)
      end
  | InsertInto name names marks =>
      match find_table db name with
      | Some t =>
          match first_missing (tbl_columns t) names with
          | Some n => inl (NoColumnNamed name n)
          | None =>
              if Nat.eqb marks (length names)
              then inr (insert_row db t names)
              else inl (ValuesMismatch marks (length names))
          end
      | None => inl (NoSuchTable name)
      end
  end.

End Sqlite.

(** ** The Python side: values, exceptions, the world and its monad *)

Module Py.
Import Text Sqlite.

Inductive pyval :=
| PyNone
| PyInt (z : Z)
| PyStr (s : string)
| PyDate (year month day : nat).

(** [datetime.date.isoformat], which the sqlite3 module applies to a date
    bound as a parameter. *)
Definition isoformat (year month day : nat) : string :=
  padded 4 year +:+ "-" +:+ padded 2 month +:+ "-" +:+ padded 2 day.

Definition adapt (v : pyval) : value :=
  match v with
  | PyNone => VNull
  | PyInt z => VInt z
  | PyStr s => VText s
  | PyDate y m d => VText (isoformat y m d)
  end.

Definition to_py (v : value) : pyval :=
  match v with
  | VNull => PyNone
  | VInt z => PyInt z
  | VText s => PyStr s
  end.

(** Truth value of a list, as in [if params:] and [xs or default]. *)
Definition truthy {A : Type} (l : list A) : bool :=
  match l with
  | [] => false
  | _ :: _ => true
  end.

Inductive exn :=
| OperationalError (msg : string)
| IntegrityError (msg : string)
| ProgrammingError (msg : string)
| DatabaseError (msg : string)
| TypeError (msg : string)
| IndexError (msg : string)
| NameError (msg : string).

(** [str(e)] *)
Definition str (e : exn) : string :=
  match e with
  | OperationalError m | IntegrityError m | ProgrammingError m
  | DatabaseError m | TypeError m | IndexError m | NameError m => m
  end.

Record dataframe := {
  df_columns : list string;
  df_rows : list (list pyval)
}.

Record figure := {
  fig_size : Z * Z;
  fig_data : option dataframe;
  fig_x : string;
  fig_y : string;
  fig_xtick_rotation : Z
}.

Inductive widget :=
| Title (s : string)
| Header (s : string)
| Write (s : string)
| Dataframe (df : dataframe)
| ErrorBox (s : string)
| WarningBox (s : string)
| SuccessBox (s : string)
| Pyplot (fig : figure).

Inductive event :=
| Connect (h : nat)
| Close (h : nat)
| Render (w : widget).

(** The store file (absent before the first connection), the data
    directory, and what happened so far, oldest first. *)
Record world := {
  store_file : option database;
  data_dir : bool;
  trace : list event
}.

Inductive result (A : Type) :=
| Return (a : A)
| Raise (e : exn).
Arguments Return {A} a.
Arguments Raise {A} e.

Definition M (A : Type) : Type := world -> result A * world.

Definition ret {A : Type} (a : A) : M A := fun w => (Return a, w).

Definition raise {A : Type} (e : exn) : M A := fun w => (Raise e, w).

Definition bind {A B : Type} (m : M A) (k : A -> M B) : M B :=
  fun w =>
    match m w with
    | (Return a, w') => k a w'
    | (Raise e, w') => (Raise e, w')
    end.

(** [try: m  except ... as e: handler e] for a handler that catches every
    exception class of this model. *)
Definition try_except {A : Type} (m : M A) (handler : exn -> M A) : M A :=
  fun w =>
    match m w with
    | (Return a, w') => (Return a, w')
    | (Raise e, w') => handler e w'
    end.

Notation "'let*' x ':=' m 'in' k" := (bind m (fun x => k))
  (at level 10, x pattern, m at level 100, k at level 200).
Notation "m ';;' k" := (bind m (fun _ => k))
  (at level 100, k at level 200, right associativity).

(** [[f x for x in xs]] *)
Fixpoint for_each {A B : Type} (xs : list A) (f : A -> M B) : M (list B) :=
  match xs with
  | [] => ret []
  | x :: xs' =>
      let* y := f x in
      let* ys := for_each xs' f in
      ret (y :: ys)
  end.

(** [r[i]] on a tuple *)
Definition item {A : Type} (r : list A) (i : nat) : M A :=
  match nth_error r i with
  | Some x => ret x
  | None => raise (IndexError "tuple index out of range")
  end.

Definition log (e : event) : M unit :=
  fun w => (Return tt, {| store_file := store_file w; data_dir := data_dir w;
                          trace := trace w ++ [e] |}).

Definition write_store (db : database) : M unit :=
  fun w => (Return tt, {| store_file := Some db; data_dir := data_dir w;
                          trace := trace w |}).

(** Handles that were opened and not closed, in opening order. *)
Fixpoint open_connections (t : list event) (opened : list nat) : list nat :=
  match t with
  | [] => opened
  | Connect h :: t' => open_connections t' (opened ++ [h])
  | Close h :: t' => open_connections t' (List.filter (fun x => negb (Nat.eqb x h)) opened)
  | Render _ :: t' => open_connections t' opened
  end.

Definition connections_opened (t : list event) : nat :=
  length (List.filter (fun e => match e with Connect _ => true | _ => false end) t).

(** *** os *)

Definition DB_NAME : string := "food_waste.db".
Definition DATA_DIR : string := "data".

(** [os.path.exists(path)]: the two paths the script asks about. *)
Definition path_exists (path : string) : M bool :=
  fun w =>
    (Return (if String.eqb path DB_NAME then bool_decide (is_Some (store_file w))
             else if String.eqb path DATA_DIR then data_dir w
             else false),
     w).

(** [os.makedirs(path)] *)
Definition makedirs (path : string) : M unit :=
  fun w =>
    (Return tt,
     {| store_file := store_file w;
        data_dir := if String.eqb path DATA_DIR then true else data_dir w;
        trace := trace w |}).

(** *** sqlite3 *)

(** A connection object: its handle, the database as this connection sees
    it, and whether it has an open transaction whose changes are not yet in
    the file. *)
Record connection := {
  conn_id : nat;
  conn_view : database;
  conn_in_transaction : bool
}.

Record cursor := {
  description : option (list string);
  fetchall : list row
}.

(** [sqlite3.connect(DB_NAME)]: creates the file when it is missing. *)
Definition connect : M connection :=
  fun w =>
    let db := default empty_db (store_file w) in
    let h := connections_opened (trace w) in
    (Return {| conn_id := h; conn_view := db; conn_in_transaction := false |},
     {| store_file := Some db; data_dir := data_dir w; trace := trace w ++ [Connect h] |}).

Definition bindings_message (uses supplied : nat) : string :=
  "Incorrect number of bindings supplied. The current statement uses " +:+ nat_text uses
  +:+ ", and there are " +:+ nat_text supplied +:+ " supplied.".

(** Runs a prepared statement on a connection.  A change made outside a
    transaction reaches the file at once; one made inside waits for commit. *)
Definition execute_stmt (conn : connection) (s : stmt) (params : list pyval)
  : M (connection * cursor) :=
  match compile (conn_view conn) s with
  | inl e => raise (OperationalError (error_message e))
  | inr run =>
      if negb (Nat.eqb (length params) (placeholders s))
      then raise (ProgrammingError (bindings_message (placeholders s) (length params)))
      else
        match run (map adapt params) with
        | Failed e => raise (IntegrityError (error_message e))
        | Rows names rows =>
            ret (conn, {| description := Some names; fetchall := rows |})
        | Changed db' =>
            let pending := (opens_transaction s || conn_in_transaction conn)%bool in
            (if pending then ret tt else write_store db') ;;
            ret ({| conn_id := conn_id conn; conn_view := db'; conn_in_transaction := pending |},
                 {| description := None; fetchall := [] |})
        end
  end.

(** [cursor.execute(sql, params)] *)
Definition cursor_execute (conn : connection) (sql : string) (params : list pyval)
  : M (connection * cursor) :=
  match prepare sql with
  | None => raise (OperationalError "syntax error")
  | Some s => execute_stmt conn s params
  end.

(** [conn.commit()] *)
Definition commit (conn : connection) : M connection :=
  (if conn_in_transaction conn then write_store (conn_view conn) else ret tt) ;;
  ret {| conn_id := conn_id conn; conn_view := conn_view conn; conn_in_transaction := false |}.

(** [conn.close()]: changes not committed are dropped with the connection. *)
Definition close (conn : connection) : M unit := log (Close (conn_id conn)).

(** Name lookup in the module's global namespace: what the script imports
    and defines at top level. *)
Definition module_globals : list string :=
  ["os"; "sqlite3"; "datetime"; "pd"; "st"; "sns"; "DB_NAME"; "DATA_DIR";
   "execute_query"; "get_unique_values"; "create_database";
   "load_embedded_data_to_db"; "display_data"; "display_food_listings";
   "display_sql_queries"; "display_food_wastage_by_type_chart";
   "add_food_listing"; "main"].

Definition global (name : string) : M unit :=
  if existsb (String.eqb name) module_globals then ret tt
  else raise (NameError ("name '" +:+ name +:+ "' is not defined")).

End Py.

(** ** pandas: data frames over a sqlite3 connection *)

Module Pandas.
Import Text Sqlite Py.

(** [pd.DataFrame({name: values, ...})]: one row per position of the first
    column. *)
Definition DataFrame (columns : list (string * list pyval)) : dataframe :=
  {| df_columns := map fst columns;
     df_rows := map (fun i => map (fun c => nth i (snd c) PyNone) columns)
                    (seq 0 (length (hd [] (map snd columns)))) |}.

(** [df.empty] *)
Definition empty (df : dataframe) : bool :=
  match df_columns df, df_rows df with
  | [], _ | _, [] => true
  | _, _ => false
  end.

(** [pd.read_sql(sql, con)] and [pd.read_sql_query(sql, con)]: run the text
    with no parameters and build a frame from the cursor. *)
Definition read_sql (sql : string) (conn : connection) : M dataframe :=
  let* (_, cur) :=
    try_except (cursor_execute conn sql [])
      (fun exc => raise (DatabaseError
         ("Execution failed on sql '" +:+ sql +:+ "': " +:+ str exc))) in
  match description cur with
  | None => raise (TypeError "'NoneType' object is not iterable")
  | Some names => ret {| df_columns := names; df_rows := map (map to_py) (fetchall cur) |}
  end.

Definition is_int (v : pyval) : bool :=
  match v with
  | PyInt _ => true
  | _ => false
  end.

(** The SQL type pandas declares for a frame column: INTEGER for a column
    of integers, TEXT for a column of strings. *)
Definition sql_type (df : dataframe) (i : nat) : affinity :=
  if forallb (fun r => is_int (nth i r PyNone)) (df_rows df) then INTEGER else TEXT.

Definition frame_schema (df : dataframe) : list column :=
  map (fun '(i, n) => {| col_name := n; col_affinity := sql_type df i; col_rowid := None |})
      (combine (seq 0 (length (df_columns df))) (df_columns df)).

Fixpoint insert_rows (conn : connection) (s : stmt) (rows : list (list pyval)) : M connection :=
  match rows with
  | [] => ret conn
  | r :: rows' =>
      let* (conn', _) := execute_stmt conn s r in
      insert_rows conn' s rows'
  end.

(** [df.to_sql(name, conn, if_exists="replace", index=False)]: drop the table
    when it exists, create it again from the frame's columns, insert the
    frame's rows, commit. *)
Definition to_sql_replace (df : dataframe) (name : string) (conn : connection) : M connection :=
  let exists_already :=
    match find_table (conn_view conn) name with
    | Some t => String.eqb (tbl_name t) name
    | None => false
    end in
  let* conn1 :=
    if exists_already
    then let* (c, _) := execute_stmt conn (DropTable name) [] in ret c
    else ret conn in
  let* (conn2, _) := execute_stmt conn1 (CreateTable false name (frame_schema df)) [] in
  let* conn3 :=
    insert_rows conn2 (InsertInto name (df_columns df) (length (df_columns df))) (df_rows df) in
  commit conn3.

End Pandas.

(** ** Streamlit: what a script run renders and what the user entered *)

Module St.
Import Py.

Definition render (w : widget) : M unit := log (Render w).

Definition title (s : string) : M unit := render (Title s).
Definition header (s : string) : M unit := render (Header s).
Definition write (s : string) : M unit := render (Write s).
Definition dataframe (df : Py.dataframe) : M unit := render (Dataframe df).
Definition error (s : string) : M unit := render (ErrorBox s).
Definition warning (s : string) : M unit := render (WarningBox s).
Definition success (s : string) : M unit := render (SuccessBox s).
Definition pyplot (fig : figure) : M unit := render (Pyplot fig).

(** [st.selectbox(label, options)]: the option the user picked, the first
    one by default, [None] when there is nothing to pick. *)
Definition selectbox {A : Type} (none : A) (options : list A) (picked : nat) : A :=
  nth picked options (hd none options).

(** [st.number_input(label, min_value=lo, step=1)] *)
Definition number_input (lo : Z) (entered : Z) : Z := Z.max lo entered.

(** What the user entered in the Add Food Listing form on this run. *)
Record listing_form := {
  food_name_entered : string;
  quantity_entered : Z;
  expiry_date_entered : nat * nat * nat;
  provider_picked : nat;
  provider_type_picked : nat;
  location_entered : string;
  food_type_picked : nat;
  meal_type_picked : nat;
  add_listing_clicked : bool
}.

(** The state of every input widget of the page on one run of the script. *)
Record session := {
  menu_picked : nat;
  table_picked : nat;
  form : listing_form;
  query_entered : string;
  execute_clicked : bool
}.

End St.

(** ** The script *)

Module App.
Import Text Sqlite Py Pandas.

(** *** Utility functions *)

Definition execute_query (query : string) (params : option (list pyval)) : M (list (list pyval)) :=
  let* conn := connect in
  let* (conn, cursor) :=
    if truthy (default [] params)
    then cursor_execute conn query (default [] params)
    else cursor_execute conn query [] in
  let results := map (map to_py) (fetchall cursor) in
  let* conn := commit conn in
  close conn ;;
  ret results.

Definition get_unique_values (table column : string) : M (list pyval) :=
  try_except
    (let query := "SELECT DISTINCT " +:+ column +:+ " FROM " +:+ table in
     let* results := execute_query query None in
     for_each results (fun r => item r 0))
    (fun _ => ret []).

(** *** Database setup functions *)

Definition create_database : M unit :=
  let* conn := connect in
  let* (conn, _) := cursor_execute conn "
        CREATE TABLE IF NOT EXISTS Providers (
            Provider_ID INTEGER PRIMARY KEY AUTOINCREMENT,
            Name TEXT,
            Type TEXT
        )
    " [] in
  let* (conn, _) := cursor_execute conn "
        CREATE TABLE IF NOT EXISTS Receivers (
            Receiver_ID INTEGER PRIMARY KEY AUTOINCREMENT,
            Name TEXT,
            Type TEXT
        )
    " [] in
  let* (conn, _) := cursor_execute conn "
        CREATE TABLE IF NOT EXISTS FoodListings (
            Listing_ID INTEGER PRIMARY KEY AUTOINCREMENT,
            Food_Name TEXT,
            Quantity INTEGER,
            Expiry_Date TEXT,
            Provider_ID INTEGER,
            Provider_Type TEXT,
            Location TEXT,
            Food_Type TEXT,
            Meal_Type TEXT
        )
    " [] in
  let* (conn, _) := cursor_execute conn "
        CREATE TABLE IF NOT EXISTS Claims (
            Claim_ID INTEGER PRIMARY KEY AUTOINCREMENT,
            Listing_ID INTEGER,
            Receiver_ID INTEGER,
            Claim_Date TEXT
        )
    " [] in
  let* conn := commit conn in
  close conn.

Definition providers : dataframe := DataFrame [
  ("Provider_ID", [PyInt 1; PyInt 2]);
  ("Name", [PyStr "Provider A"; PyStr "Provider B"]);
  ("Type", [PyStr "Restaurant"; PyStr "Supermarket"])
].

Definition receivers : dataframe := DataFrame [
  ("Receiver_ID", [PyInt 1; PyInt 2]);
  ("Name", [PyStr "Receiver A"; PyStr "Receiver B"]);
  ("Type", [PyStr "NGO"; PyStr "Charity"])
].

Definition food_listings : dataframe := DataFrame [
  ("Listing_ID", [PyInt 1; PyInt 2]);
  ("Food_Name", [PyStr "Rice"; PyStr "Bread"]);
  ("Quantity", [PyInt 10; PyInt 5]);
  ("Expiry_Date", [PyStr "2025-05-10"; PyStr "2025-05-12"]);
  ("Provider_ID", [PyInt 1; PyInt 2]);
  ("Provider_Type", [PyStr "Restaurant"; PyStr "Supermarket"]);
  ("Location", [PyStr "Downtown"; PyStr "Uptown"]);
  ("Food_Type", [PyStr "Grain"; PyStr "Bakery"]);
  ("Meal_Type", [PyStr "Lunch"; PyStr "Breakfast"])
].

Definition claims : dataframe := DataFrame [
  ("Claim_ID", [PyInt 1]);
  ("Listing_ID", [PyInt 1]);
  ("Receiver_ID", [PyInt 1]);
  ("Claim_Date", [PyStr "2025-05-08"])
].

Definition load_embedded_data_to_db : M unit :=
  let* conn := connect in
  let* conn := to_sql_replace providers "Providers" conn in
  let* conn := to_sql_replace receivers "Receivers" conn in
  let* conn := to_sql_replace food_listings "FoodListings" conn in
  let* conn := to_sql_replace claims "Claims" conn in
  let* conn := commit conn in
  close conn.

(** *** Display functions *)

Definition display_data (table : string) : M unit :=
  let* conn := connect in
  let* df := read_sql ("SELECT * FROM " +:+ table) conn in
  St.dataframe df.

Definition display_food_listings : M unit :=
  St.header "Food Listings" ;;
  let* conn := connect in
  let* df := read_sql "SELECT * FROM FoodListings" conn in
  St.dataframe df.

Definition display_sql_queries (query : string) (execute_clicked : bool) : M unit :=
  St.header "Run SQL Query" ;;
  if execute_clicked then
    try_except
      (let* conn := connect in
       let* df := read_sql query conn in
       St.dataframe df)
      (fun e => St.error ("Error: " +:+ str e))
  else ret tt.

(** The script calls [plt.figure], [plt.xticks] and [plt.gcf]; each use of
    [plt] and [sns] is first looked up among the module's globals. *)
Definition display_food_wastage_by_type_chart : M unit :=
  let* conn := connect in
  let* df := read_sql "SELECT Food_Type, SUM(Quantity) as Total FROM FoodListings GROUP BY Food_Type" conn in
  close conn ;;
  if empty df then
    St.warning "No data available."
  else
    global "plt" ;;
    let fig := {| fig_size := (10, 6); fig_data := None; fig_x := ""; fig_y := "";
                  fig_xtick_rotation := 0 |} in
    global "sns" ;;
    let fig := {| fig_size := fig_size fig; fig_data := Some df; fig_x := "Food_Type";
                  fig_y := "Total"; fig_xtick_rotation := fig_xtick_rotation fig |} in
    global "plt" ;;
    let fig := {| fig_size := fig_size fig; fig_data := fig_data fig; fig_x := fig_x fig;
                  fig_y := fig_y fig; fig_xtick_rotation := 45 |} in
    global "plt" ;;
    St.pyplot fig.

(** *** Add listing function *)

(** [xs or fallback] *)
Definition or_else {A : Type} (xs fallback : list A) : list A :=
  if truthy xs then xs else fallback.

(** The options offered by the Food Type and Meal Type select boxes. *)
Definition food_type_options : M (list pyval) :=
  let* found := get_unique_values "FoodListings" "Food_Type" in
  ret (or_else found [PyStr "Vegetable"; PyStr "Grain"]).

Definition meal_type_options : M (list pyval) :=
  let* found := get_unique_values "FoodListings" "Meal_Type" in
  ret (or_else found [PyStr "Breakfast"; PyStr "Lunch"; PyStr "Dinner"]).

Definition insert_listing_sql : string := "
            INSERT INTO FoodListings (Food_Name, Quantity, Expiry_Date, Provider_ID, Provider_Type, Location, Food_Type, Meal_Type)
            VALUES (?, ?, ?, ?, ?, ?, ?, ?)
        ".

Definition add_food_listing (f : St.listing_form) : M unit :=
  St.header "Add Food Listing" ;;
  let food_name := PyStr (St.food_name_entered f) in
  let quantity := PyInt (St.number_input 1 (St.quantity_entered f)) in
  let expiry_date :=
    let '(y, m, d) := St.expiry_date_entered f in PyDate y m d in
  let* provider_ids := get_unique_values "Providers" "Provider_ID" in
  let provider_id := St.selectbox PyNone provider_ids (St.provider_picked f) in
  let* provider_types := get_unique_values "Providers" "Type" in
  let provider_type := St.selectbox PyNone provider_types (St.provider_type_picked f) in
  let location := PyStr (St.location_entered f) in
  let* food_types := food_type_options in
  let food_type := St.selectbox PyNone food_types (St.food_type_picked f) in
  let* meal_types := meal_type_options in
  let meal_type := St.selectbox PyNone meal_types (St.meal_type_picked f) in
  if St.add_listing_clicked f then
    let query := insert_listing_sql in
    let params := [food_name; quantity; expiry_date; provider_id; provider_type;
                   location; food_type; meal_type] in
    execute_query query (Some params) ;;
    St.success "Food listing added successfully!"
  else ret tt.

(** *** Main function *)

(** The first-launch block at the head of [main]. *)
Definition bootstrap : M unit :=
  let* present := path_exists DB_NAME in
  if negb present then
    create_database ;;
    let* dir_present := path_exists DATA_DIR in
    (if negb dir_present then makedirs DATA_DIR else ret tt) ;;
    load_embedded_data_to_db
  else ret tt.

Definition menu : list string :=
  ["Home"; "View Data"; "Add Food Listing"; "Food Listings"; "SQL Queries";
   "Food Wastage Chart"].

Definition viewable_tables : list string :=
  ["Providers"; "Receivers"; "FoodListings"; "Claims"].

Definition main (s : St.session) : M unit :=
  St.title "Local Food Wastage Management System" ;;
  bootstrap ;;
  let choice := St.selectbox "" menu (St.menu_picked s) in
  if String.eqb choice "Home" then
    St.write "Welcome to the Local Food Wastage Management System."
  else if String.eqb choice "View Data" then
    let table := St.selectbox "" viewable_tables (St.table_picked s) in
    display_data table
  else if String.eqb choice "Add Food Listing" then
    add_food_listing (St.form s)
  else if String.eqb choice "Food Listings" then
    display_food_listings
  else if String.eqb choice "SQL Queries" then
    display_sql_queries (St.query_entered s) (St.execute_clicked s)
  else if String.eqb choice "Food Wastage Chart" then
    display_food_wastage_by_type_chart
  else ret tt.

End App.

(** ** Observations the statements below are written with *)

Import Text Sqlite Py Pandas App.

(** What the store holds; a store file that does not exist holds nothing. *)
Definition contents (w : world) : database := default empty_db (store_file w).

Definition table_rows (db : database) (name : string) : option (list row) :=
  match find_table db name with
  | Some t => Some (tbl_rows t)
  | None => None
  end.

Definition table_names (db : database) : gset string :=
  list_to_set (map (fun p => tbl_name (snd p)) (map_to_list (db_tables db))).

(** The distinct values a column of a table holds, none when the table or
    the column is missing. *)
Definition existing_values (db : database) (table column : string) : list pyval :=
  match find_table db table with
  | Some t =>
      match column_index (tbl_columns t) column with
      | Some i => map to_py (distinct (map (field i) (tbl_rows t)))
      | None => []
      end
  | None => []
  end.

Definition is_read (s : stmt) : bool :=
  match s with
  | SelectStar _ | SelectDistinct _ _ | SelectSumBy _ _ _ _ => true
  | _ => false
  end.

(** The result set the store produces for a statement without parameters. *)
Definition answer (db : database) (s : stmt) : option (list string * list row) :=
  match compile db s with
  | inr run =>
      match run [] with
      | Rows names rows => Some (names, rows)
      | _ => None
      end
  | inl _ => None
  end.

(** The frame pandas builds from a result set. *)
Definition frame_of (names : list string) (rows : list row) : dataframe :=
  {| df_columns := names; df_rows := map (map to_py) rows |}.

Definition rendered (t : list event) : list widget :=
  omap (fun e => match e with Render x => Some x | _ => None end) t.

Definition is_pyplot (x : widget) : bool :=
  match x with
  | Pyplot _ => true
  | _ => false
  end.

(** The world before the first launch: no store file, no data directory. *)
Definition first_launch : world :=
  {| store_file := None; data_dir := false; trace := [] |}.

(** The world after the first launch. *)
Definition seeded : world := snd (bootstrap first_launch).

(** The world a script run leaves behind. *)
Definition run_script (s : St.session) (w : world) : world := snd (main s w).

(** The world once a connection has been opened on it, and once that
    connection has been closed again. *)
Definition after_connect (w : world) : world :=
  {| store_file := Some (contents w); data_dir := data_dir w;
     trace := trace w ++ [Connect (connections_opened (trace w))] |}.

Definition after_query (w : world) : world :=
  {| store_file := Some (contents w); data_dir := data_dir w;
     trace := trace w ++ [Connect (connections_opened (trace w));
                          Close (connections_opened (trace w))] |}.

(** The statement behind the aggregate chart. *)
Definition chart_statement : stmt :=
  SelectSumBy "Food_Type" "Quantity" "Total" "FoodListings".

(** A filled-in Add Food Listing form, and the sessions of a user who opens
    one page of the menu. *)
Definition apple_form (clicked : bool) : St.listing_form :=
  {| St.food_name_entered := "Apple";
     St.quantity_entered := 3;
     St.expiry_date_entered := (2025%nat, 6%nat, 1%nat);
     St.provider_picked := 0;
     St.provider_type_picked := 0;
     St.location_entered := "Midtown";
     St.food_type_picked := 0;
     St.meal_type_picked := 0;
     St.add_listing_clicked := clicked |}.

Definition on_page (page : nat) (clicked : bool) : St.session :=
  {| St.menu_picked := page;
     St.table_picked := 0;
     St.form := apple_form clicked;
     St.query_entered := "";
     St.execute_clicked := false |}.

Definition seed_listings : list row :=
  [[VInt 1; VText "Rice"; VInt 10; VText "2025-05-10"; VInt 1; VText "Restaurant";
    VText "Downtown"; VText "Grain"; VText "Lunch"];
   [VInt 2; VText "Bread"; VInt 5; VText "2025-05-12"; VInt 2; VText "Supermarket";
    VText "Uptown"; VText "Bakery"; VText "Breakfast"]].

(** The columns the Add Food Listing insert names. *)
Definition listing_columns : list string :=
  ["Food_Name"; "Quantity"; "Expiry_Date"; "Provider_ID"; "Provider_Type";
   "Location"; "Food_Type"; "Meal_Type"].

(** The widgets a click on Execute can end in. *)
Definition is_query_result (x : widget) : bool :=
  match x with
  | Dataframe _ | ErrorBox _ => true
  | _ => false
  end.

(** The eight values a click on Add Listing submits, for a form filled in
    over a store: what [add_food_listing] binds to its insert. *)
Definition submitted (f : St.listing_form) (db : database) : list pyval :=
  [PyStr (St.food_name_entered f);
   PyInt (St.number_input 1 (St.quantity_entered f));
   (let '(y, m, d) := St.expiry_date_entered f in PyDate y m d);
   St.selectbox PyNone (existing_values db "Providers" "Provider_ID") (St.provider_picked f);
   St.selectbox PyNone (existing_values db "Providers" "Type") (St.provider_type_picked f);
   PyStr (St.location_entered f);
   St.selectbox PyNone
     (or_else (existing_values db "FoodListings" "Food_Type") [PyStr "Vegetable"; PyStr "Grain"])
     (St.food_type_picked f);
   St.selectbox PyNone
     (or_else (existing_values db "FoodListings" "Meal_Type")
        [PyStr "Breakfast"; PyStr "Lunch"; PyStr "Dinner"])
     (St.meal_type_picked f)].

(** The FoodListings columns [create_database] declares. *)
Definition declared_listing_schema : list column :=
  [{| col_name := "Listing_ID"; col_affinity := INTEGER; col_rowid := Some true |};
   {| col_name := "Food_Name"; col_affinity := TEXT; col_rowid := None |};
   {| col_name := "Quantity"; col_affinity := INTEGER; col_rowid := None |};
   {| col_name := "Expiry_Date"; col_affinity := TEXT; col_rowid := None |};
   {| col_name := "Provider_ID"; col_affinity := INTEGER; col_rowid := None |};
   {| col_name := "Provider_Type"; col_affinity := TEXT; col_rowid := None |};
   {| col_name := "Location"; col_affinity := TEXT; col_rowid := None |};
   {| col_name := "Food_Type"; col_affinity := TEXT; col_rowid := None |};
   {| col_name := "Meal_Type"; col_affinity := TEXT; col_rowid := None |}].

(** The eight submitted values as a table with the FoodListings columns
    stores them, behind the identifier. *)
Definition stored_fields (params : list pyval) : row :=
  match map adapt params with
  | [v1; v2; v3; v4; v5; v6; v7; v8] =>
      [apply_affinity TEXT v1; apply_affinity INTEGER v2; apply_affinity TEXT v3;
       apply_affinity INTEGER v4; apply_affinity TEXT v5; apply_affinity TEXT v6;
       apply_affinity TEXT v7; apply_affinity TEXT v8]
  | _ => []
  end.

(** [CREATE TABLE IF NOT EXISTS] as a function of the store: an existing
    table is left alone, a missing one is created without rows. *)
Definition ensure_table (db : database) (name : string) (cols : list column) : database :=
  match find_table db name with
  | Some _ => db
  | None => store_table db {| tbl_name := name; tbl_columns := cols; tbl_rows := [] |}
  end.

(** The columns [create_database] declares for the other three tables. *)
Definition declared_party_schema (key : string) : list column :=
  [{| col_name := key; col_affinity := INTEGER; col_rowid := Some true |};
   {| col_name := "Name"; col_affinity := TEXT; col_rowid := None |};
   {| col_name := "Type"; col_affinity := TEXT; col_rowid := None |}].

Definition declared_claim_schema : list column :=
  [{| col_name := "Claim_ID"; col_affinity := INTEGER; col_rowid := Some true |};
   {| col_name := "Listing_ID"; col_affinity := INTEGER; col_rowid := None |};
   {| col_name := "Receiver_ID"; col_affinity := INTEGER; col_rowid := None |};
   {| col_name := "Claim_Date"; col_affinity := TEXT; col_rowid := None |}].

(** The store [create_database] leaves. *)
Definition with_declared_tables (db : database) : database :=
  ensure_table
    (ensure_table
       (ensure_table
          (ensure_table db "Providers" (declared_party_schema "Provider_ID"))
          "Receivers" (declared_party_schema "Receiver_ID"))
       "FoodListings" declared_listing_schema)
    "Claims" declared_claim_schema.

(** A frame as [to_sql] stores it: every column plain, none a key. *)
Definition frame_table (name : string) (df : dataframe) : table :=
  {| tbl_name := name;
     tbl_columns := frame_schema df;
     tbl_rows := map (fun r => map (supplied (df_columns df) (map adapt r)) (frame_schema df))
                     (df_rows df) |}.

(** [to_sql(name, if_exists="replace")] as a function of the store. *)
Definition replace_table (db : database) (name : string) (df : dataframe) : database :=
  {| db_tables := <[lower name := frame_table name df]> (db_tables db);
     db_sequence := match find_table db name with
                    | Some _ => delete (lower name) (db_sequence db)
                    | None => db_sequence db
                    end |}.

(** The store [load_embedded_data_to_db] leaves. *)
Definition with_seed_tables (db : database) : database :=
  replace_table
    (replace_table
       (replace_table (replace_table db "Providers" providers) "Receivers" receivers)
       "FoodListings" food_listings)
    "Claims" claims.

(** What [to_sql] needs of a frame: its rows are as wide as its header. *)
Definition rectangular (df : dataframe) : bool :=
  forallb (fun r => Nat.eqb (length r) (length (df_columns df))) (df_rows df).

(** ** Properties *)

(** *** Scanning the text of a query built from two names *)

Lemma ident_char_plain c :
  is_ident_char c = true -> is_space c = false /\ is_punct c = false.
Proof.
  destruct c as [[] [] [] [] [] [] [] []]; vm_compute; intuition congruence.
Qed.

Lemma append_assoc_char (w : string) c (s : string) :
  (w +:+ String c EmptyString) +:+ s = w +:+ String c s.
Proof. induction w as [|a w IH]; simpl; [reflexivity | now rewrite IH]. Qed.

Lemma append_empty_r (w : string) : w +:+ EmptyString = w.
Proof. induction w as [|a w IH]; simpl; [reflexivity | now rewrite IH]. Qed.

Lemma scan_word (name : string) : forall (w rest : string),
  all_chars is_ident_char name = true ->
  scan w (name +:+ rest) = scan (w +:+ name) rest.
Proof.
  induction name as [|c name IH]; intros w rest H; simpl in *.
  - now rewrite append_empty_r.
  - apply andb_prop in H as [Hc Hn].
    destruct (ident_char_plain c Hc) as [-> ->].
    rewrite IH by assumption. now rewrite append_assoc_char.
Qed.

Lemma identifier_chars (name : string) :
  is_identifier name = true ->
  all_chars is_ident_char name = true /\ name <> EmptyString.
Proof.
  destruct name as [|c name]; [discriminate|].
  unfold is_identifier. intros H.
  apply andb_prop in H as [H _]. apply andb_prop in H as [_ H].
  split; [exact H | discriminate].
Qed.

Lemma flush_word (w : string) ts : w <> EmptyString -> flush w ts = TWord w :: ts.
Proof. destruct w; [congruence | reflexivity]. Qed.

Lemma scan_identifier (name : string) :
  is_identifier name = true -> scan EmptyString name = [TWord name].
Proof.
  intros H. destruct (identifier_chars _ H) as [Hc Hn].
  rewrite <- (append_empty_r name) at 1.
  rewrite scan_word by assumption. simpl.
  now apply flush_word.
Qed.

Lemma tokenize_select_distinct (column table : string) :
  is_identifier column = true -> is_identifier table = true ->
  tokenize ("SELECT DISTINCT " +:+ column +:+ " FROM " +:+ table)
  = [TWord "SELECT"; TWord "DISTINCT"; TWord column; TWord "FROM"; TWord table].
Proof.
  intros Hc Ht. destruct (identifier_chars _ Hc) as [Hcc Hcn].
  unfold tokenize.
  change (scan EmptyString ("SELECT DISTINCT " +:+ column +:+ " FROM " +:+ table))
    with (TWord "SELECT" :: TWord "DISTINCT" :: scan EmptyString (column +:+ " FROM " +:+ table)).
  rewrite scan_word by assumption.
  change (scan (EmptyString +:+ column) (" FROM " +:+ table))
    with (flush column (TWord "FROM" :: scan EmptyString table)).
  rewrite flush_word by assumption.
  now rewrite scan_identifier.
Qed.

Lemma tokenize_select_star (table : string) :
  is_identifier table = true ->
  tokenize ("SELECT * FROM " +:+ table)
  = [TWord "SELECT"; TSym "*"; TWord "FROM"; TWord table].
Proof.
  intros Ht. unfold tokenize.
  change (scan EmptyString ("SELECT * FROM " +:+ table))
    with (TWord "SELECT" :: TSym "*" :: TWord "FROM" :: scan EmptyString table).
  now rewrite scan_identifier.
Qed.

Lemma prepare_select_distinct (column table : string) :
  is_identifier column = true -> is_identifier table = true ->
  prepare ("SELECT DISTINCT " +:+ column +:+ " FROM " +:+ table)
  = Some (SelectDistinct column table).
Proof.
  intros Hc Ht. unfold prepare.
  rewrite tokenize_select_distinct by assumption.
  simpl. now rewrite Hc, Ht.
Qed.

Lemma prepare_select_star (table : string) :
  is_identifier table = true ->
  prepare ("SELECT * FROM " +:+ table) = Some (SelectStar table).
Proof.
  intros Ht. unfold prepare.
  rewrite tokenize_select_star by assumption.
  simpl. now rewrite Ht.
Qed.

(** *** Running one query through [execute_query] *)

Lemma connect_eq (w : world) :
  connect w
  = (Return {| conn_id := connections_opened (trace w); conn_view := contents w;
               conn_in_transaction := false |}, after_connect w).
Proof. reflexivity. Qed.

Lemma execute_query_syntax_error (q : string) (w : world) :
  prepare q = None ->
  execute_query q None w = (Raise (OperationalError "syntax error"), after_connect w).
Proof.
  intros H. unfold execute_query, bind. rewrite connect_eq. simpl.
  unfold cursor_execute. now rewrite H.
Qed.

Lemma execute_query_rejected (q : string) (w : world) s e :
  prepare q = Some s -> compile (contents w) s = inl e ->
  execute_query q None w = (Raise (OperationalError (error_message e)), after_connect w).
Proof.
  intros H Hc. unfold execute_query, bind. rewrite connect_eq. simpl.
  unfold cursor_execute. rewrite H. unfold execute_stmt. simpl. now rewrite Hc.
Qed.

Lemma answer_inv db s names rows :
  answer db s = Some (names, rows) ->
  exists run, compile db s = inr run /\ run [] = Rows names rows.
Proof.
  unfold answer. destruct (compile db s) as [e|run]; [discriminate|].
  destruct (run []) eqn:E; try discriminate.
  intros [= -> ->]. now exists run.
Qed.

Lemma execute_query_rows (q : string) (w : world) s names rows :
  prepare q = Some s -> placeholders s = O ->
  answer (contents w) s = Some (names, rows) ->
  execute_query q None w = (Return (map (map to_py) rows), after_query w).
Proof.
  intros H Hp Ha. destruct (answer_inv _ _ _ _ Ha) as (run & Hc & Hr).
  unfold execute_query, bind. rewrite connect_eq. simpl.
  unfold cursor_execute. rewrite H. unfold execute_stmt. simpl.
  rewrite Hc, Hp. simpl. rewrite Hr. simpl.
  unfold after_connect, after_query, close, log. simpl.
  now rewrite <- app_assoc.
Qed.

Lemma for_each_first {A B : Type} (f : A -> B) (l : list A) (w : world) :
  for_each (map (fun v => [f v]) l) (fun r => item r 0) w = (Return (map f l), w).
Proof.
  induction l as [|x l IH]; [reflexivity|].
  simpl. unfold bind. simpl. now rewrite IH.
Qed.

Lemma answer_select_distinct db table column t i :
  find_table db table = Some t -> column_index (tbl_columns t) column = Some i ->
  exists names,
    answer db (SelectDistinct column table)
    = Some (names, map (fun v => [v]) (distinct (map (field i) (tbl_rows t)))).
Proof.
  intros Ht Hi. unfold answer. simpl. rewrite Ht, Hi. eauto.
Qed.

Lemma execute_query_change (q : string) (w : world) (params : list pyval) s run db' :
  prepare q = Some s -> truthy params = true ->
  placeholders s = length params -> opens_transaction s = true ->
  compile (contents w) s = inr run ->
  run (map adapt params) = Changed db' ->
  execute_query q (Some params) w
  = (Return [],
     {| store_file := Some db'; data_dir := data_dir w;
        trace := trace w ++ [Connect (connections_opened (trace w));
                             Close (connections_opened (trace w))] |}).
Proof.
  intros Hp Ht Hl Ho Hc Hr. unfold execute_query, bind. rewrite connect_eq. simpl.
  rewrite Ht. unfold cursor_execute. rewrite Hp.
  unfold execute_stmt. simpl. rewrite Hc, Hl, Nat.eqb_refl. simpl. rewrite Hr, Ho. simpl.
  unfold after_connect, close, log. simpl. now rewrite <- app_assoc.
Qed.

Lemma get_unique_values_found (table column : string) (w : world) t i :
  is_identifier table = true -> is_identifier column = true ->
  find_table (contents w) table = Some t ->
  column_index (tbl_columns t) column = Some i ->
  get_unique_values table column w
  = (Return (map to_py (distinct (map (field i) (tbl_rows t)))), after_query w).
Proof.
  intros Ht Hc Et Ei. unfold get_unique_values, try_except, bind.
  pose proof (prepare_select_distinct column table Hc Ht) as Hp.
  destruct (answer_select_distinct _ _ _ _ _ Et Ei) as [names Ha].
  rewrite (execute_query_rows _ _ _ _ _ Hp eq_refl Ha).
  rewrite !map_map. simpl.
  rewrite <- (map_map (fun v => v) (fun v => [to_py v])), map_id.
  now rewrite for_each_first.
Qed.

Lemma get_unique_values_result (table column : string) (w : world) :
  is_identifier table = true -> is_identifier column = true ->
  exists w',
    get_unique_values table column w
    = (Return (existing_values (contents w) table column), w')
    /\ contents w' = contents w.
Proof.
  intros Ht Hc. unfold existing_values.
  pose proof (prepare_select_distinct column table Hc Ht) as Hp.
  destruct (find_table (contents w) table) as [t|] eqn:Et.
  - destruct (column_index (tbl_columns t) column) as [i|] eqn:Ei.
    + exists (after_query w). split; [|reflexivity].
      now apply get_unique_values_found.
    + exists (after_connect w). split; [|reflexivity].
      unfold get_unique_values, try_except, bind.
      rewrite (execute_query_rejected _ _ _ (NoSuchColumn column) Hp); [reflexivity|].
      simpl. now rewrite Et, Ei.
  - exists (after_connect w). split; [|reflexivity].
    unfold get_unique_values, try_except, bind.
    rewrite (execute_query_rejected _ _ _ (NoSuchTable table) Hp); [reflexivity|].
    simpl. now rewrite Et.
Qed.

Lemma get_unique_values_existing (table column : string) (w : world) :
  is_identifier table = true -> is_identifier column = true ->
  fst (get_unique_values table column w)
  = Return (existing_values (contents w) table column).
Proof.
  intros Ht Hc.
  destruct (get_unique_values_result table column w Ht Hc) as (w' & E & _).
  now rewrite E.
Qed.

(** *** The distinct-values helper *)



(** C10: [get_unique_values] is total: for every table and column string it
    returns a list and raises nothing, and whatever exception its [try]
    block raises, the list it returns is empty. *)
Theorem get_unique_values_never_raises (table column : string) (w : world) :
  (exists values w', get_unique_values table column w = (Return values, w'))
  /\ (forall e w',
        (let* results :=
           execute_query ("SELECT DISTINCT " +:+ column +:+ " FROM " +:+ table) None in
         for_each results (fun r => item r 0)) w = (Raise e, w') ->
        get_unique_values table column w = (Return [], w')).
Proof.
  unfold get_unique_values, try_except. split.
  - match goal with |- context [match ?m w with _ => _ end] => destruct (m w) as [[values|e] w'] end;
      eauto.
  - intros e w' H. now rewrite H.
Qed.

Lemma get_unique_values_never_raises_witness :
  (exists values w', get_unique_values "Providers" "Colour" seeded = (Return values, w'))
  /\ get_unique_values "Providers" "Colour" seeded = (Return [], after_connect seeded).
Proof.
  destruct (get_unique_values_never_raises "Providers" "Colour" seeded) as [H1 H2].
  split; [exact H1|].
  apply (H2 (OperationalError "no such column: Colour")). vm_compute. reflexivity.
Defined.

(** *** The options of the Add Food Listing form *)

Lemma bind_fst_return {A B : Type} (m : M A) (f : A -> B) (a : A) (w : world) :
  fst (m w) = Return a ->
  fst ((let* x := m in ret (f x)) w) = Return (f a).
Proof.
  unfold bind, ret. destruct (m w) as [[x|e] w']; simpl; congruence.
Qed.

(** C9: the food-type options of the form are the distinct Food_Type values
    of FoodListings, or Vegetable and Grain when there are none; the
    meal-type options are the distinct Meal_Type values, or Breakfast, Lunch
    and Dinner when there are none. *)
Theorem form_options (w : world) :
  fst (food_type_options w)
  = Return match existing_values (contents w) "FoodListings" "Food_Type" with
           | [] => [PyStr "Vegetable"; PyStr "Grain"]
           | found => found
           end
  /\ fst (meal_type_options w)
     = Return match existing_values (contents w) "FoodListings" "Meal_Type" with
              | [] => [PyStr "Breakfast"; PyStr "Lunch"; PyStr "Dinner"]
              | found => found
              end.
Proof.
  split.
  - unfold food_type_options.
    rewrite (bind_fst_return _ _ (existing_values (contents w) "FoodListings" "Food_Type"))
      by (now apply get_unique_values_existing).
    unfold or_else. now destruct (existing_values _ _ _).
  - unfold meal_type_options.
    rewrite (bind_fst_return _ _ (existing_values (contents w) "FoodListings" "Meal_Type"))
      by (now apply get_unique_values_existing).
    unfold or_else. now destruct (existing_values _ _ _).
Qed.

(** *** The first-launch block *)

Lemma bootstrap_skipped (w : world) (db : database) :
  store_file w = Some db -> bootstrap w = (Return tt, w).
Proof.
  intros H. unfold bootstrap, bind, path_exists. simpl.
  rewrite bool_decide_eq_true_2 by (rewrite H; eauto).
  reflexivity.
Qed.

(** C6: when the store file exists, the first-launch block of [main] does
    nothing: the world is as before, and so is every row of every table. *)
Theorem bootstrap_keeps_existing_store (w : world) (db : database) :
  store_file w = Some db ->
  bootstrap w = (Return tt, w)
  /\ forall name, table_rows (contents (snd (bootstrap w))) name = table_rows db name.
Proof.
  intros H. rewrite (bootstrap_skipped w db H). split; [reflexivity|].
  intros name. unfold contents. simpl. now rewrite H.
Qed.

Lemma bootstrap_keeps_existing_store_witness :
  bootstrap seeded = (Return tt, seeded)
  /\ forall name,
       table_rows (contents (snd (bootstrap seeded))) name = table_rows (contents seeded) name.
Proof.
  apply (bootstrap_keeps_existing_store seeded (contents seeded)).
  vm_compute. reflexivity.
Defined.



(** *** Reading through pandas *)

Lemma read_sql_rows (q : string) (conn : connection) (w : world) s names rows :
  prepare q = Some s -> placeholders s = O ->
  answer (conn_view conn) s = Some (names, rows) ->
  read_sql q conn w = (Return (frame_of names rows), w).
Proof.
  intros H Hp Ha. destruct (answer_inv _ _ _ _ Ha) as (run & Hc & Hr).
  unfold read_sql, bind, try_except, cursor_execute. rewrite H.
  unfold execute_stmt. rewrite Hc, Hp. simpl. now rewrite Hr.
Qed.


Lemma connections_opened_render (t : list event) (x : widget) :
  connections_opened (t ++ [Render x]) = connections_opened t.
Proof.
  unfold connections_opened. rewrite List.filter_app, length_app. simpl. lia.
Qed.


Lemma viewable_is_identifier (table : string) :
  In table viewable_tables -> is_identifier table = true.
Proof.
  unfold viewable_tables. simpl.
  intros [<-|[<-|[<-|[<-|[]]]]]; reflexivity.
Qed.

Lemma display_data_rows (table : string) (w : world) (t : Sqlite.table) :
  is_identifier table = true ->
  find_table (contents w) table = Some t ->
  display_data table w
  = (Return tt,
     {| store_file := Some (contents w);
        data_dir := data_dir w;
        trace := trace w ++ [Connect (connections_opened (trace w));
                             Render (Dataframe {| df_columns := map col_name (tbl_columns t);
                                                  df_rows := map (map to_py) (tbl_rows t) |})] |}).
Proof.
  intros Hid Ht.
  pose proof (prepare_select_star table Hid) as Hp.
  unfold display_data, bind. rewrite connect_eq.
  rewrite (read_sql_rows _ _ _ (SelectStar table) (map col_name (tbl_columns t))
             (tbl_rows t) Hp eq_refl).
  - unfold St.dataframe, St.render, log, after_connect, frame_of. simpl.
    now rewrite <- app_assoc.
  - unfold answer. simpl. now rewrite Ht.
Qed.





(** *** The ad-hoc query runner *)



(** The query runner does run statements that change the store. *)
Lemma query_runner_can_drop_a_table :
  table_names (contents (snd (display_sql_queries "DROP TABLE Claims" true seeded)))
  = {[ "Providers"; "Receivers"; "FoodListings" ]}
  /\ rendered (trace (snd (display_sql_queries "DROP TABLE Claims" true seeded)))
     = [Header "Run SQL Query"; ErrorBox "Error: 'NoneType' object is not iterable"].
Proof. vm_compute. split; reflexivity. Qed.

(** *** Adding a listing *)

Lemma prepare_insert_listing :
  prepare insert_listing_sql = Some (InsertInto "FoodListings" listing_columns 8).
Proof. vm_compute. reflexivity. Qed.

Lemma unkeyed_listing_row (p1 p2 p3 p4 p5 p6 p7 p8 : pyval) :
  map (supplied listing_columns (map adapt [p1; p2; p3; p4; p5; p6; p7; p8]))
      (frame_schema food_listings)
  = [VNull; apply_affinity TEXT (adapt p1); apply_affinity INTEGER (adapt p2);
     apply_affinity TEXT (adapt p3); apply_affinity INTEGER (adapt p4);
     apply_affinity TEXT (adapt p5); apply_affinity TEXT (adapt p6);
     apply_affinity TEXT (adapt p7); apply_affinity TEXT (adapt p8)].
Proof. reflexivity. Qed.

Lemma insert_into_replaced_table (db : database) (t : table) (params : list value) :
  find_table db "FoodListings" = Some t ->
  tbl_columns t = frame_schema food_listings ->
  exists run,
    compile db (InsertInto "FoodListings" listing_columns 8) = inr run
    /\ run params
       = Changed (store_table db (with_rows t (tbl_rows t
                    ++ [map (supplied listing_columns params) (frame_schema food_listings)]))).
Proof.
  intros Hf Hc. simpl. rewrite Hf, Hc.
  change (first_missing (frame_schema food_listings) listing_columns) with (@None string).
  simpl. eexists. split; [reflexivity|].
  unfold insert_row. rewrite Hc.
  change (rowid_column (frame_schema food_listings)) with (@None (nat * bool)).
  reflexivity.
Qed.


Lemma add_food_listing_runs (f : St.listing_form) (w : world) (t : table) :
  St.add_listing_clicked f = true ->
  find_table (contents w) "FoodListings" = Some t ->
  tbl_columns t = frame_schema food_listings ->
  let db := contents w in
  let provider_id :=
    St.selectbox PyNone (existing_values db "Providers" "Provider_ID") (St.provider_picked f) in
  let provider_type :=
    St.selectbox PyNone (existing_values db "Providers" "Type") (St.provider_type_picked f) in
  let food_type :=
    St.selectbox PyNone
      (or_else (existing_values db "FoodListings" "Food_Type") [PyStr "Vegetable"; PyStr "Grain"])
      (St.food_type_picked f) in
  let meal_type :=
    St.selectbox PyNone
      (or_else (existing_values db "FoodListings" "Meal_Type")
         [PyStr "Breakfast"; PyStr "Lunch"; PyStr "Dinner"])
      (St.meal_type_picked f) in
  exists w',
    add_food_listing f w = (Return tt, w')
    /\ contents w'
       = store_table db (with_rows t (tbl_rows t ++
           [map (supplied listing_columns
                   (map adapt [PyStr (St.food_name_entered f);
                               PyInt (St.number_input 1 (St.quantity_entered f));
                               (let '(y, m, d) := St.expiry_date_entered f in PyDate y m d);
                               provider_id; provider_type;
                               PyStr (St.location_entered f); food_type; meal_type]))
                (frame_schema food_listings)])).
Proof.
  intros Hclick Hf Hc db provider_id provider_type food_type meal_type.
  unfold add_food_listing, food_type_options, meal_type_options.
  rewrite Hclick.
  unfold bind at 1. unfold St.header, St.render, log at 1.
  set (w0 := {| store_file := store_file w; data_dir := data_dir w;
                trace := trace w ++ [Render (Header "Add Food Listing")] |}).
  assert (C0 : contents w0 = db) by reflexivity.
  destruct (get_unique_values_result "Providers" "Provider_ID" w0 eq_refl eq_refl)
    as (w1 & E1 & C1).
  unfold bind at 1. rewrite E1.
  destruct (get_unique_values_result "Providers" "Type" w1 eq_refl eq_refl)
    as (w2 & E2 & C2).
  unfold bind at 1. rewrite E2.
  destruct (get_unique_values_result "FoodListings" "Food_Type" w2 eq_refl eq_refl)
    as (w3 & E3 & C3).
  unfold bind at 1. unfold bind at 1. rewrite E3. unfold ret at 1.
  destruct (get_unique_values_result "FoodListings" "Meal_Type" w3 eq_refl eq_refl)
    as (w4 & E4 & C4).
  unfold bind at 1. unfold bind at 1. rewrite E4. unfold ret at 1.
  rewrite C1, C0. rewrite C2, C1, C0. rewrite C3, C2, C1, C0.
  fold provider_id provider_type food_type meal_type.
  assert (D4 : contents w4 = db) by (now rewrite C4, C3, C2, C1, C0).
  destruct (St.expiry_date_entered f) as [[y m] d].
  destruct (insert_into_replaced_table (contents w4)
              t (map adapt [PyStr (St.food_name_entered f);
                            PyInt (St.number_input 1 (St.quantity_entered f));
                            PyDate y m d; provider_id; provider_type;
                            PyStr (St.location_entered f); food_type; meal_type]))
    as (run & Hrun & Hres); try assumption.
  { now rewrite D4. }
  unfold bind at 1.
  erewrite execute_query_change;
    [| exact prepare_insert_listing | reflexivity | reflexivity | reflexivity
     | exact Hrun | exact Hres].
  eexists. split; [reflexivity|].
  unfold contents at 1. simpl. now rewrite D4.
Qed.



Lemma rowid_column_lt (cols : list column) k a :
  rowid_column cols = Some (k, a) -> (k < length cols)%nat.
Proof.
  revert k. induction cols as [|c cols IH]; intros k; simpl; [discriminate|].
  destruct (col_rowid c).
  - intros [= <- _]. lia.
  - destruct (rowid_column cols) as [[i b]|]; [|discriminate].
    intros [= <- <-]. specialize (IH i eq_refl). lia.
Qed.

Lemma largest_rowid_bound (k : nat) (rows : list row) :
  forall r z, In r rows -> field k r = VInt z ->
  exists m, largest_rowid k rows = Some m /\ z <= m.
Proof.
  induction rows as [|x rows IH]; intros r z Hin Hz; [contradiction|].
  simpl. destruct Hin as [->|Hin].
  - rewrite Hz. destruct (largest_rowid k rows) as [m|]; eexists; split; try reflexivity; lia.
  - destruct (IH r z Hin Hz) as (m & -> & Hm).
    destruct (field k x); eexists; split; try reflexivity; lia.
Qed.

Lemma next_rowid_above (k : nat) (rows : list row) r z :
  In r rows -> field k r = VInt z -> z < next_rowid k rows.
Proof.
  intros Hin Hz. unfold next_rowid.
  destruct (largest_rowid_bound k rows r z Hin Hz) as (m & -> & Hm). lia.
Qed.

(** On a table with an integer primary key, an insert that leaves the key
    out appends one row whose key is an integer no row of the table has. *)
Lemma keyed_insert_assigns_fresh_identifier
    (db : database) (t : table) (names : list string) (params : list value) k a :
  rowid_column (tbl_columns t) = Some (k, a) ->
  position names (col_name (nth k (tbl_columns t)
                    {| col_name := ""; col_affinity := INTEGER; col_rowid := None |})) = None ->
  exists id r db',
    insert_row db t names params = Changed db'
    /\ table_rows db' (tbl_name t) = Some (tbl_rows t ++ [r])%list
    /\ field k r = VInt id
    /\ (forall x, In x (tbl_rows t) -> field k x <> VInt id).
Proof.
  intros Hk Hp. pose proof (rowid_column_lt _ _ _ Hk) as Hlt.
  unfold insert_row. rewrite Hk.
  set (r := map (supplied names params) (tbl_columns t)).
  assert (Hr : field k r = VNull).
  { unfold field, r.
    rewrite (nth_indep _ VNull (supplied names params
               {| col_name := ""; col_affinity := INTEGER; col_rowid := None |}))
      by (rewrite length_map; exact Hlt).
    rewrite map_nth. unfold supplied. now rewrite Hp. }
  rewrite Hr.
  set (id := if a then _ else _).
  exists id, (<[k := VInt id]> r). eexists. split; [reflexivity|].
  assert (Hid : next_rowid k (tbl_rows t) <= id) by (unfold id; destruct a; lia).
  split; [|split].
  - unfold note_sequence, table_rows, find_table, store_table.
    destruct a; simpl; now rewrite lookup_insert_eq.
  - unfold field. rewrite nth_lookup.
    rewrite list_lookup_insert_eq by (unfold r; rewrite length_map; exact Hlt).
    reflexivity.
  - intros x Hx E. pose proof (next_rowid_above k _ x id Hx E). lia.
Qed.

(** C1: after the first launch, a submitted Add Food Listing form adds
    exactly one row to FoodListings and the row holds the eight submitted
    values, but its Listing_ID is NULL: the seed write replaced the table
    declared with an AUTOINCREMENT key by one without any key. *)
Theorem added_listing_has_null_identifier :
  fst (main (on_page 2 true) (run_script (on_page 2 false) first_launch)) = Return tt
  /\ table_rows (contents (run_script (on_page 2 false) first_launch)) "FoodListings"
     = Some seed_listings
  /\ table_rows (contents (run_script (on_page 2 true) (run_script (on_page 2 false) first_launch)))
       "FoodListings"
     = Some (seed_listings
             ++ [[VNull; VText "Apple"; VInt 3; VText "2025-06-01"; VInt 1;
                  VText "Restaurant"; VText "Midtown"; VText "Grain"; VText "Lunch"]])%list.
Proof. vm_compute. repeat split. Qed.

(** On the schema [create_database] declares, before the seed write
    replaces it, the same form gets the identifier 1. *)
Lemma added_listing_on_declared_schema :
  table_rows (contents (snd (add_food_listing (apple_form true)
                               (snd (create_database first_launch)))))
    "FoodListings"
  = Some [[VInt 1; VText "Apple"; VInt 3; VText "2025-06-01"; VNull; VNull;
           VText "Midtown"; VText "Vegetable"; VText "Breakfast"]].
Proof. vm_compute. reflexivity. Qed.

(** *** The aggregate chart *)

Lemma prepare_chart_query :
  prepare "SELECT Food_Type, SUM(Quantity) as Total FROM FoodListings GROUP BY Food_Type"
  = Some chart_statement.
Proof. vm_compute. reflexivity. Qed.




(** C5: over the seed data the aggregate query yields the groups Bakery 5
    and Grain 10, but the chart view then raises NameError for [plt], which
    the script never imports, and renders no chart. *)
Theorem chart_view_raises_name_error :
  answer (contents seeded) chart_statement
  = Some (["Food_Type"; "Total"], [[VText "Bakery"; VInt 5]; [VText "Grain"; VInt 10]])
  /\ fst (display_food_wastage_by_type_chart seeded)
     = Raise (NameError "name 'plt' is not defined")
  /\ rendered (trace (snd (display_food_wastage_by_type_chart seeded))) = []
  /\ fst (main (on_page 5 false) first_launch)
     = Raise (NameError "name 'plt' is not defined")
  /\ existsb is_pyplot (rendered (trace (run_script (on_page 5 false) first_launch))) = false.
Proof. vm_compute. repeat split. Qed.

(** *** Connections *)

Lemma open_connections_app (t1 t2 : list event) (opened : list nat) :
  open_connections (t1 ++ t2) opened = open_connections t2 (open_connections t1 opened).
Proof.
  revert opened. induction t1 as [|e t1 IH]; intros opened; [reflexivity|].
  destruct e; simpl; apply IH.
Qed.

(** For every store, the connection the table dump opens is still open when
    the dump has rendered its frame. *)
Lemma table_dump_connection_stays_open (table : string) (w : world) (t : Sqlite.table) :
  In table viewable_tables ->
  find_table (contents w) table = Some t ->
  open_connections (trace (snd (display_data table w))) []
  = (open_connections (trace w) [] ++ [connections_opened (trace w)])%list.
Proof.
  intros Hin Ht.
  rewrite (display_data_rows table w t (viewable_is_identifier _ Hin) Ht). simpl.
  now rewrite open_connections_app.
Qed.

(** C7: on the seeded store the table dump, the food listings view and the
    query runner each open connection 2, render their frame while it is
    open, and leave it open; the distinct-values helper leaves its
    connection open when its query raises, and closes it otherwise. *)
Theorem views_leave_connection_open :
  trace (snd (display_data "Claims" seeded))
  = [Connect 0; Close 0; Connect 1; Close 1; Connect 2;
     Render (Dataframe {| df_columns := ["Claim_ID"; "Listing_ID"; "Receiver_ID"; "Claim_Date"];
                          df_rows := [[PyInt 1; PyInt 1; PyInt 1; PyStr "2025-05-08"]] |})]
  /\ open_connections (trace (snd (display_data "Claims" seeded))) [] = [2%nat]
  /\ open_connections (trace (snd (display_food_listings seeded))) [] = [2%nat]
  /\ open_connections (trace (snd (display_sql_queries "SELECT * FROM Claims" true seeded))) []
     = [2%nat]
  /\ open_connections (trace (snd (get_unique_values "Donors" "Name" seeded))) [] = [2%nat]
  /\ open_connections (trace (snd (get_unique_values "Providers" "Name" seeded))) [] = [].
Proof. vm_compute. repeat split. Qed.

(** ** Further properties of the script *)

(** *** What [execute_query] does on every query *)

Lemma execute_stmt_cases (conn : connection) (s : stmt) (params : list pyval) (w : world) :
  conn_in_transaction conn = false ->
  (exists e, execute_stmt conn s params w = (Raise e, w))
  \/ (exists names rows,
        execute_stmt conn s params w
        = (Return (conn, {| description := Some names; fetchall := rows |}), w))
  \/ (exists db',
        execute_stmt conn s params w
        = (Return ({| conn_id := conn_id conn; conn_view := db';
                      conn_in_transaction := opens_transaction s |},
                   {| description := None; fetchall := [] |}),
           if opens_transaction s then w
           else {| store_file := Some db'; data_dir := data_dir w; trace := trace w |})).
Proof.
  intros Hc. unfold execute_stmt.
  destruct (compile (conn_view conn) s) as [e|run]; [left; eauto|].
  destruct (negb _); [left; eauto|].
  destruct (run (map adapt params)) as [e|db'|names rows].
  - left; eauto.
  - right; right. exists db'. rewrite Hc, orb_false_r. unfold bind.
    destruct (opens_transaction s); reflexivity.
  - right; left. eauto.
Qed.

Lemma execute_query_cases (q : string) (params : option (list pyval)) (w : world) :
  (exists e, execute_query q params w = (Raise e, after_connect w))
  \/ (exists results db',
        execute_query q params w
        = (Return results,
           {| store_file := Some db'; data_dir := data_dir w;
              trace := trace w ++ [Connect (connections_opened (trace w));
                                   Close (connections_opened (trace w))] |})).
Proof.
  unfold execute_query, bind. rewrite connect_eq.
  set (conn := {| conn_id := _; conn_view := _; conn_in_transaction := false |}).
  assert (E : forall ps,
             (exists e, cursor_execute conn q ps (after_connect w) = (Raise e, after_connect w))
             \/ (exists c cur db', cursor_execute conn q ps (after_connect w)
                   = (Return (c, cur),
                      {| store_file := Some db'; data_dir := data_dir w;
                         trace := trace (after_connect w) |})
                   /\ conn_id c = conn_id conn
                   /\ (conn_in_transaction c = true -> conn_view c = conn_view c))).
  { intros ps. unfold cursor_execute. destruct (prepare q) as [s|]; [|left; eauto].
    destruct (execute_stmt_cases conn s ps (after_connect w) eq_refl)
      as [[e H]|[(names & rows & H)|(db' & H)]]; rewrite H.
    - left; eauto.
    - right. do 3 eexists. split; [reflexivity|]. split; [reflexivity|]. tauto.
    - right. destruct (opens_transaction s); do 3 eexists;
        (split; [reflexivity|]); split; try reflexivity; tauto. }
  destruct (truthy (default [] params));
    [destruct (E (default [] params)) as [[e H]|(c & cur & db' & H & Hid & _)]
    |destruct (E []) as [[e H]|(c & cur & db' & H & Hid & _)]];
    rewrite H; try (left; eauto; fail); right;
    unfold commit, close, log, write_store, bind, ret; simpl;
    destruct (conn_in_transaction c); simpl; rewrite Hid; simpl;
    rewrite <- app_assoc; simpl; eauto.
Qed.

(** X1: whenever [execute_query] raises, the store holds what it held
    before and the connection it opened has not been closed. *)
Theorem execute_query_failure_keeps_store
    (q : string) (params : option (list pyval)) (w w' : world) (e : exn) :
  execute_query q params w = (Raise e, w') ->
  contents w' = contents w
  /\ trace w' = (trace w ++ [Connect (connections_opened (trace w))])%list.
Proof.
  intros H. destruct (execute_query_cases q params w) as [[e' H']|(r & db' & H')];
    rewrite H' in H; [|discriminate].
  injection H as _ <-. split; reflexivity.
Qed.

Lemma execute_query_failure_keeps_store_witness :
  contents (snd (execute_query "SELECT * FROM Donors" None seeded)) = contents seeded
  /\ trace (snd (execute_query "SELECT * FROM Donors" None seeded))
     = (trace seeded ++ [Connect (connections_opened (trace seeded))])%list.
Proof.
  apply (execute_query_failure_keeps_store "SELECT * FROM Donors" None seeded _
           (OperationalError "no such table: Donors")).
  vm_compute. reflexivity.
Defined.

(** X2: whenever [execute_query] returns, it has opened exactly one
    connection and closed it again. *)
Theorem execute_query_success_closes
    (q : string) (params : option (list pyval)) (w w' : world) (results : list (list pyval)) :
  execute_query q params w = (Return results, w') ->
  trace w' = (trace w ++ [Connect (connections_opened (trace w));
                          Close (connections_opened (trace w))])%list.
Proof.
  intros H. destruct (execute_query_cases q params w) as [[e' H']|(r & db' & H')];
    rewrite H' in H; [discriminate|].
  injection H as _ <-. reflexivity.
Qed.

Lemma execute_query_success_closes_witness :
  trace (snd (execute_query "SELECT * FROM Claims" None seeded))
  = (trace seeded ++ [Connect (connections_opened (trace seeded));
                      Close (connections_opened (trace seeded))])%list.
Proof.
  apply (execute_query_success_closes "SELECT * FROM Claims" None seeded _
           [[PyInt 1; PyInt 1; PyInt 1; PyStr "2025-05-08"]]).
  vm_compute. reflexivity.
Defined.

(** *** Queries that start with SELECT *)

Lemma parse_select_reads (ts : list token) (s : stmt) :
  parse_select ts = Some s -> is_read s = true.
Proof.
  unfold parse_select. intros H.
  repeat match type of H with
         | context [match ?x with _ => _ end] => destruct x; try discriminate
         end;
    injection H as <-; reflexivity.
Qed.

Lemma strip_last_semicolon_head (t : token) (ts : list token) :
  is_sym ";" t = false ->
  exists ts', strip_last_semicolon (t :: ts) = t :: ts'.
Proof.
  intros H. destruct ts as [|u ts]; simpl.
  - rewrite H. eauto.
  - eauto.
Qed.

Lemma prepare_select_reads (rest : string) (s : stmt) :
  prepare ("SELECT " +:+ rest) = Some s -> is_read s = true.
Proof.
  unfold prepare, tokenize.
  change (scan EmptyString ("SELECT " +:+ rest))
    with (TWord "SELECT" :: scan EmptyString rest).
  destruct (strip_last_semicolon_head (TWord "SELECT") (scan EmptyString rest) eq_refl)
    as [ts' ->].
  change (kw "select" (TWord "SELECT")) with true. cbv iota.
  apply parse_select_reads.
Qed.

Lemma compile_read (db : database) (s : stmt) run :
  is_read s = true -> compile db s = inr run ->
  exists names rows, forall params, run params = Rows names rows.
Proof.
  destruct s; try discriminate; intros _; simpl;
    repeat match goal with
           | |- context [match ?x with _ => _ end] => destruct x; try discriminate
           end;
    intros [= <-]; eauto.
Qed.

Lemma read_sql_keeps_world (q : string) (conn : connection) (w : world) :
  (forall s, prepare q = Some s -> is_read s = true) ->
  snd (read_sql q conn w) = w.
Proof.
  intros Hq. unfold read_sql, bind, try_except, cursor_execute.
  destruct (prepare q) as [s|] eqn:E; [|reflexivity].
  specialize (Hq s eq_refl). unfold execute_stmt.
  destruct (compile (conn_view conn) s) as [e|run] eqn:Ec; [reflexivity|].
  destruct (compile_read _ _ _ Hq Ec) as (names & rows & Hr).
  destruct (negb _); [reflexivity|].
  rewrite Hr. reflexivity.
Qed.

Lemma execute_query_keeps_store (q : string) (w : world) :
  (forall s, prepare q = Some s -> is_read s = true) ->
  contents (snd (execute_query q None w)) = contents w.
Proof.
  intros Hq. unfold execute_query, bind. rewrite connect_eq. simpl.
  unfold cursor_execute.
  destruct (prepare q) as [s|] eqn:E; [|reflexivity].
  specialize (Hq s eq_refl). unfold execute_stmt.
  destruct (compile (conn_view _) s) as [e|run] eqn:Ec; [reflexivity|].
  destruct (compile_read _ _ _ Hq Ec) as (names & rows & Hr).
  destruct (negb _); [reflexivity|].
  rewrite Hr. reflexivity.
Qed.

Lemma for_each_item_keeps_world {A : Type} (rs : list (list A)) (w : world) :
  snd (for_each rs (fun r => item r 0) w) = w.
Proof.
  induction rs as [|r rs IH]; [reflexivity|].
  simpl. unfold bind, item.
  destruct (nth_error r 0); [|reflexivity].
  unfold ret at 1.
  destruct (for_each rs _ w) as [[ys|e] w1]; simpl in *; now subst.
Qed.

(** X3: whatever strings it is given as table and column, the
    distinct-values helper leaves the store holding what it held: the text
    it builds starts with SELECT, so it is a read or is rejected. *)
Theorem get_unique_values_keeps_store (table column : string) (w : world) :
  contents (snd (get_unique_values table column w)) = contents w.
Proof.
  unfold get_unique_values, try_except, bind.
  pose proof (execute_query_keeps_store
                ("SELECT DISTINCT " +:+ column +:+ " FROM " +:+ table) w
                (prepare_select_reads ("DISTINCT " +:+ column +:+ " FROM " +:+ table))) as H.
  destruct (execute_query _ None w) as [[rs|e] w1]; simpl in H; [|exact H].
  pose proof (for_each_item_keeps_world rs w1) as F.
  destruct (for_each rs _ w1) as [[ys|e] w2]; simpl in *; now subst.
Qed.

Lemma display_data_keeps_store (table : string) (w : world) :
  contents (snd (display_data table w)) = contents w.
Proof.
  unfold display_data, bind. rewrite connect_eq.
  pose proof (read_sql_keeps_world ("SELECT * FROM " +:+ table)
                {| conn_id := connections_opened (trace w); conn_view := contents w;
                   conn_in_transaction := false |} (after_connect w)
                (prepare_select_reads ("* FROM " +:+ table))) as H.
  destruct (read_sql _ _ (after_connect w)) as [[df|e] w1]; simpl in H; subst; reflexivity.
Qed.

Lemma display_food_listings_keeps_store (w : world) :
  contents (snd (display_food_listings w)) = contents w.
Proof.
  unfold display_food_listings, bind, St.header, St.render. simpl.
  match goal with |- context [read_sql ?q ?c ?x] =>
    pose proof (read_sql_keeps_world q c x (prepare_select_reads "* FROM FoodListings")) as H;
    destruct (read_sql q c x) as [[df|e] w1] end;
    simpl in H; subst; reflexivity.
Qed.

Lemma chart_keeps_store (w : world) :
  contents (snd (display_food_wastage_by_type_chart w)) = contents w.
Proof.
  unfold display_food_wastage_by_type_chart, bind. rewrite connect_eq.
  match goal with |- context [read_sql ?q ?c ?x] =>
    pose proof (read_sql_keeps_world q c x
      (prepare_select_reads "Food_Type, SUM(Quantity) as Total FROM FoodListings GROUP BY Food_Type")) as H;
    destruct (read_sql q c x) as [[df|e] w1] end;
    simpl in H; subst; [|reflexivity].
  simpl. destruct (empty df); reflexivity.
Qed.

(** X4: the read views leave the store holding what it held, on every
    store and for every table string: the table dump, the food listings
    view and the aggregate chart. *)
Theorem views_keep_store (table : string) (w : world) :
  contents (snd (display_data table w)) = contents w
  /\ contents (snd (display_food_listings w)) = contents w
  /\ contents (snd (display_food_wastage_by_type_chart w)) = contents w.
Proof.
  split; [apply display_data_keeps_store|].
  split; [apply display_food_listings_keeps_store | apply chart_keeps_store].
Qed.





(** *** More on the query runner *)

Lemma read_sql_keeps_trace (q : string) (conn : connection) (w : world) :
  trace (snd (read_sql q conn w)) = trace w.
Proof.
  unfold read_sql, bind, try_except, cursor_execute, execute_stmt.
  destruct (prepare q) as [s|]; [|reflexivity].
  destruct (compile (conn_view conn) s) as [e|run]; [reflexivity|].
  destruct (negb _); [reflexivity|].
  destruct (run (map adapt [])) as [e|db'|names rows]; try reflexivity.
  unfold bind. destruct (opens_transaction s || conn_in_transaction conn)%bool; reflexivity.
Qed.

Lemma query_runner_click (query : string) (w : world) :
  exists x w',
    is_query_result x = true
    /\ display_sql_queries query true w = (Return tt, w')
    /\ trace w' = (trace w ++ [Render (Header "Run SQL Query");
                               Connect (connections_opened (trace w));
                               Render x])%list.
Proof.
  unfold display_sql_queries, bind, try_except, St.header, St.render, log at 1.
  rewrite connect_eq.
  match goal with |- context [read_sql ?q ?c ?x] =>
    pose proof (read_sql_keeps_trace q c x) as T;
    destruct (read_sql q c x) as [[df|e] w1] end;
    simpl in T; rewrite connections_opened_render, <- app_assoc in T.
  - exists (Dataframe df). eexists. split; [reflexivity|]. split; [reflexivity|].
    simpl. rewrite T, <- app_assoc. reflexivity.
  - exists (ErrorBox ("Error: " +:+ str e)). eexists.
    split; [reflexivity|]. split; [reflexivity|].
    simpl. rewrite T, <- app_assoc. reflexivity.
Qed.

(** X7: the query runner never raises, whatever text is entered and
    whatever the store holds: a click on Execute renders the header and
    then exactly one widget, a frame or an error box; without a click only
    the header is rendered and nothing else happens. *)
Theorem query_runner_never_raises (query : string) (clicked : bool) (w : world) :
  fst (display_sql_queries query clicked w) = Return tt
  /\ (if clicked
      then exists x,
             is_query_result x = true
             /\ rendered (trace (snd (display_sql_queries query clicked w)))
                = (rendered (trace w) ++ [Header "Run SQL Query"; x])%list
      else snd (display_sql_queries query clicked w)
           = {| store_file := store_file w; data_dir := data_dir w;
                trace := trace w ++ [Render (Header "Run SQL Query")] |}).
Proof.
  destruct clicked; [|split; reflexivity].
  destruct (query_runner_click query w) as (x & w' & Hx & E & T).
  rewrite E. split; [reflexivity|]. exists x. split; [exact Hx|].
  simpl. rewrite T. unfold rendered. rewrite omap_app. reflexivity.
Qed.

Lemma tokenize_drop_table (name : string) :
  is_identifier name = true ->
  tokenize ("DROP TABLE " +:+ name) = [TWord "DROP"; TWord "TABLE"; TWord name].
Proof.
  intros H. unfold tokenize.
  change (scan EmptyString ("DROP TABLE " +:+ name))
    with (TWord "DROP" :: TWord "TABLE" :: scan EmptyString name).
  now rewrite scan_identifier.
Qed.

Lemma prepare_drop_table (name : string) :
  is_identifier name = true ->
  prepare ("DROP TABLE " +:+ name) = Some (DropTable name).
Proof.
  intros H. unfold prepare. rewrite tokenize_drop_table by assumption.
  simpl. now rewrite H.
Qed.

(** X8: the query runner does not hold back a destructive statement: a
    DROP TABLE of an existing table removes that table from the store, and
    only that one, although the runner then shows an error box, because the
    statement has no result set. *)
Theorem query_runner_drops_table (name : string) (w : world) (t : table) :
  is_identifier name = true ->
  find_table (contents w) name = Some t ->
  find_table (contents (snd (display_sql_queries ("DROP TABLE " +:+ name) true w))) name = None
  /\ (forall other, lower other <> lower name ->
        find_table (contents (snd (display_sql_queries ("DROP TABLE " +:+ name) true w))) other
        = find_table (contents w) other)
  /\ rendered (trace (snd (display_sql_queries ("DROP TABLE " +:+ name) true w)))
     = (rendered (trace w)
        ++ [Header "Run SQL Query"; ErrorBox "Error: 'NoneType' object is not iterable"])%list.
Proof.
  intros Hid Hf.
  unfold display_sql_queries, bind, try_except, St.header, St.render, log at 1.
  rewrite connect_eq.
  unfold read_sql, bind, try_except, cursor_execute.
  rewrite (prepare_drop_table name Hid). unfold execute_stmt.
  unfold after_connect, contents at 1 2 3. simpl. fold (contents w). rewrite Hf. simpl.
  unfold find_table. simpl.
  split; [apply lookup_delete_eq|]. split.
  - intros other Hne. now apply lookup_delete_ne.
  - unfold rendered. rewrite <- !app_assoc, !omap_app. reflexivity.
Qed.

Lemma query_runner_drops_table_witness :
  find_table (contents (snd (display_sql_queries ("DROP TABLE " +:+ "Claims") true seeded)))
    "Claims" = None.
Proof.
  assert (F : exists t, find_table (contents seeded) "Claims" = Some t)
    by (vm_compute; eauto).
  destruct F as [t Ht].
  exact (proj1 (query_runner_drops_table "Claims" seeded t eq_refl Ht)).
Defined.

(** *** More on the aggregate chart *)





(** X10: on a store without FoodListings table the chart view raises
    pandas' DatabaseError before it reaches [conn.close()]: nothing is
    rendered and its connection stays open. *)
Theorem chart_view_missing_table (w : world) :
  find_table (contents w) "FoodListings" = None ->
  display_food_wastage_by_type_chart w
  = (Raise (DatabaseError
       "Execution failed on sql 'SELECT Food_Type, SUM(Quantity) as Total FROM FoodListings GROUP BY Food_Type': no such table: FoodListings"),
     after_connect w).
Proof.
  intros Hf. unfold display_food_wastage_by_type_chart, bind. rewrite connect_eq.
  unfold read_sql, bind, try_except, cursor_execute.
  rewrite prepare_chart_query. unfold execute_stmt, chart_statement. simpl.
  rewrite Hf. reflexivity.
Qed.

Lemma chart_view_missing_table_witness :
  open_connections
    (trace (snd (display_food_wastage_by_type_chart first_launch))) [] = [0%nat].
Proof.
  rewrite (chart_view_missing_table first_launch eq_refl). reflexivity.
Defined.

(** *** More on the Add Food Listing form *)

Lemma execute_query_rejected_with (q : string) (params : option (list pyval)) (w : world) s e :
  prepare q = Some s -> compile (contents w) s = inl e ->
  execute_query q params w = (Raise (OperationalError (error_message e)), after_connect w).
Proof.
  intros H Hc. unfold execute_query, bind. rewrite connect_eq. simpl.
  unfold cursor_execute. rewrite H. unfold execute_stmt. simpl. rewrite Hc.
  now destruct (truthy (default [] params)).
Qed.

Lemma rendered_after_connect (w : world) : rendered (trace (after_connect w)) = rendered (trace w).
Proof.
  unfold after_connect, rendered. simpl. rewrite omap_app. simpl. apply app_nil_r.
Qed.

Lemma rendered_after_query (w : world) : rendered (trace (after_query w)) = rendered (trace w).
Proof.
  unfold after_query, rendered. simpl. rewrite omap_app. simpl. apply app_nil_r.
Qed.

Lemma get_unique_values_world (table column : string) (w : world) :
  (exists values, get_unique_values table column w = (Return values, after_query w))
  \/ get_unique_values table column w = (Return [], after_connect w).
Proof.
  unfold get_unique_values, try_except, bind.
  pose proof (execute_query_keeps_store
                ("SELECT DISTINCT " +:+ column +:+ " FROM " +:+ table) w
                (prepare_select_reads ("DISTINCT " +:+ column +:+ " FROM " +:+ table))) as K.
  destruct (execute_query_cases ("SELECT DISTINCT " +:+ column +:+ " FROM " +:+ table) None w)
    as [[e H]|(rs & db' & H)]; rewrite H in *; [now right|].
  left. simpl in K. unfold contents in K at 1. simpl in K. subst db'.
  fold (after_query w).
  pose proof (for_each_item_keeps_world rs (after_query w)) as F.
  destruct (for_each rs _ (after_query w)) as [[ys|e] w2]; simpl in F; subst; eauto.
Qed.

Lemma get_unique_values_quiet (table column : string) (w : world) :
  is_identifier table = true -> is_identifier column = true ->
  exists w',
    get_unique_values table column w
    = (Return (existing_values (contents w) table column), w')
    /\ contents w' = contents w
    /\ data_dir w' = data_dir w
    /\ rendered (trace w') = rendered (trace w).
Proof.
  intros Ht Hc. pose proof (get_unique_values_existing table column w Ht Hc) as E.
  destruct (get_unique_values_world table column w) as [[vs H]|H];
    rewrite H in E; simpl in E; injection E as E; rewrite H, E.
  - exists (after_query w). repeat split. apply rendered_after_query.
  - exists (after_connect w). repeat split. apply rendered_after_connect.
Qed.

(** What the form has read once its widgets are drawn: the world then, and
    what a click on Add Listing goes on to do. *)
Lemma add_food_listing_reads (f : St.listing_form) (w : world) :
  exists w4,
    contents w4 = contents w
    /\ data_dir w4 = data_dir w
    /\ rendered (trace w4) = (rendered (trace w) ++ [Header "Add Food Listing"])%list
    /\ add_food_listing f w
       = if St.add_listing_clicked f
         then (execute_query insert_listing_sql (Some (submitted f (contents w))) ;;
               St.success "Food listing added successfully!") w4
         else (Return tt, w4).
Proof.
  unfold add_food_listing, food_type_options, meal_type_options, submitted.
  unfold bind at 1. unfold St.header, St.render, log at 1.
  set (w0 := {| store_file := store_file w; data_dir := data_dir w;
                trace := trace w ++ [Render (Header "Add Food Listing")] |}).
  assert (C0 : contents w0 = contents w) by reflexivity.
  assert (R0 : rendered (trace w0) = (rendered (trace w) ++ [Header "Add Food Listing"])%list).
  { unfold w0, rendered. simpl. now rewrite omap_app. }
  destruct (get_unique_values_quiet "Providers" "Provider_ID" w0 eq_refl eq_refl)
    as (w1 & E1 & C1 & D1 & R1).
  unfold bind at 1. rewrite E1.
  destruct (get_unique_values_quiet "Providers" "Type" w1 eq_refl eq_refl)
    as (w2 & E2 & C2 & D2 & R2).
  unfold bind at 1. rewrite E2.
  destruct (get_unique_values_quiet "FoodListings" "Food_Type" w2 eq_refl eq_refl)
    as (w3 & E3 & C3 & D3 & R3).
  unfold bind at 1. unfold bind at 1. rewrite E3. unfold ret at 1.
  destruct (get_unique_values_quiet "FoodListings" "Meal_Type" w3 eq_refl eq_refl)
    as (w4 & E4 & C4 & D4 & R4).
  unfold bind at 1. unfold bind at 1. rewrite E4. unfold ret at 1.
  rewrite C1, C0. rewrite C2, C1, C0. rewrite C3, C2, C1, C0.
  exists w4. split; [now rewrite C4, C3, C2, C1, C0|].
  split; [now rewrite D4, D3, D2, D1|].
  split; [now rewrite R4, R3, R2, R1, R0|].
  destruct (St.expiry_date_entered f) as [[y m] d].
  destruct (St.add_listing_clicked f); reflexivity.
Qed.

(** X11: drawing the Add Food Listing form without a click on Add Listing
    never raises and changes nothing in the store, whatever the store
    holds, even one without any table; it renders the header only. *)
Theorem add_food_listing_form_reads_only (f : St.listing_form) (w : world) :
  St.add_listing_clicked f = false ->
  fst (add_food_listing f w) = Return tt
  /\ contents (snd (add_food_listing f w)) = contents w
  /\ rendered (trace (snd (add_food_listing f w)))
     = (rendered (trace w) ++ [Header "Add Food Listing"])%list.
Proof.
  intros Hc. destruct (add_food_listing_reads f w) as (w4 & C & _ & R & E).
  rewrite Hc in E. rewrite E. simpl. auto.
Qed.

Lemma add_food_listing_form_reads_only_witness :
  fst (add_food_listing (apple_form false) first_launch) = Return tt
  /\ contents (snd (add_food_listing (apple_form false) first_launch)) = contents first_launch
  /\ rendered (trace (snd (add_food_listing (apple_form false) first_launch)))
     = (rendered (trace first_launch) ++ [Header "Add Food Listing"])%list.
Proof. apply (add_food_listing_form_reads_only (apple_form false) first_launch). reflexivity. Defined.

(** X12: a click on Add Listing on a store without FoodListings table
    raises sqlite3's OperationalError out of the form: the store holds what
    it held and no success box is rendered. *)
Theorem add_food_listing_missing_table (f : St.listing_form) (w : world) :
  St.add_listing_clicked f = true ->
  find_table (contents w) "FoodListings" = None ->
  fst (add_food_listing f w) = Raise (OperationalError "no such table: FoodListings")
  /\ contents (snd (add_food_listing f w)) = contents w
  /\ rendered (trace (snd (add_food_listing f w)))
     = (rendered (trace w) ++ [Header "Add Food Listing"])%list.
Proof.
  intros Hc Hf. destruct (add_food_listing_reads f w) as (w4 & C & _ & R & E).
  rewrite Hc in E. rewrite E. unfold bind.
  erewrite (execute_query_rejected_with _ _ _ _ (NoSuchTable "FoodListings"));
    [| exact prepare_insert_listing | simpl; rewrite C, Hf; reflexivity].
  cbn [fst snd]. rewrite rendered_after_connect. repeat split; assumption.
Qed.

Lemma add_food_listing_missing_table_witness :
  fst (add_food_listing (apple_form true) first_launch)
  = Raise (OperationalError "no such table: FoodListings").
Proof.
  exact (proj1 (add_food_listing_missing_table (apple_form true) first_launch eq_refl eq_refl)).
Defined.

Lemma add_food_listing_submits (f : St.listing_form) (w : world) run db' :
  St.add_listing_clicked f = true ->
  compile (contents w) (InsertInto "FoodListings" listing_columns 8) = inr run ->
  run (map adapt (submitted f (contents w))) = Changed db' ->
  exists w',
    add_food_listing f w = (Return tt, w')
    /\ contents w' = db'
    /\ rendered (trace w')
       = (rendered (trace w)
          ++ [Header "Add Food Listing"; SuccessBox "Food listing added successfully!"])%list.
Proof.
  intros Hc Hrun Hres. destruct (add_food_listing_reads f w) as (w4 & C & _ & R & E).
  rewrite Hc in E. rewrite E. unfold bind.
  erewrite execute_query_change;
    [| exact prepare_insert_listing | reflexivity | reflexivity | reflexivity
     | rewrite C; exact Hrun | exact Hres].
  eexists. split; [reflexivity|]. split; [reflexivity|].
  simpl. unfold rendered in *. rewrite !omap_app, R. simpl. rewrite <- !app_assoc. reflexivity.
Qed.

Lemma keyed_listing_row (p1 p2 p3 p4 p5 p6 p7 p8 : pyval) :
  map (supplied listing_columns (map adapt [p1; p2; p3; p4; p5; p6; p7; p8]))
      declared_listing_schema
  = VNull :: stored_fields [p1; p2; p3; p4; p5; p6; p7; p8].
Proof. reflexivity. Qed.

Lemma submitted_shape (f : St.listing_form) (db : database) :
  exists p1 p2 p3 p4 p5 p6 p7 p8, submitted f db = [p1; p2; p3; p4; p5; p6; p7; p8].
Proof. unfold submitted. do 8 eexists. reflexivity. Qed.

(** The identifier an AUTOINCREMENT key gets next. *)
Lemma declared_schema_insert (f : St.listing_form) (w : world) (t : table) :
  St.add_listing_clicked f = true ->
  find_table (contents w) "FoodListings" = Some t ->
  tbl_name t = "FoodListings" ->
  tbl_columns t = declared_listing_schema ->
  exists id w',
    add_food_listing f w = (Return tt, w')
    /\ find_table (contents w') "FoodListings"
       = Some (with_rows t (tbl_rows t
                 ++ [VInt id :: stored_fields (submitted f (contents w))]))
    /\ (forall x, In x (tbl_rows t) -> field 0 x <> VInt id)
    /\ rendered (trace w')
       = (rendered (trace w)
          ++ [Header "Add Food Listing"; SuccessBox "Food listing added successfully!"])%list.
Proof.
  intros Hclick Hf Hn Hc.
  set (seq := default 0 (db_sequence (contents w) !! lower (tbl_name t))).
  set (id := Z.max (next_rowid 0 (tbl_rows t)) (seq + 1)).
  exists id.
  destruct (submitted_shape f (contents w)) as (p1 & p2 & p3 & p4 & p5 & p6 & p7 & p8 & Es).
  destruct (add_food_listing_submits f w (insert_row (contents w) t listing_columns)
              (note_sequence
                 (store_table (contents w)
                    (with_rows t (tbl_rows t
                       ++ [VInt id :: stored_fields (submitted f (contents w))])))
                 t true id) Hclick) as (w' & E & C & R).
  - simpl. rewrite Hf, Hc. reflexivity.
  - unfold insert_row. rewrite Hc, Es, keyed_listing_row. reflexivity.
  - exists w'. split; [exact E|]. rewrite C. split; [|split; [|exact R]].
    + unfold find_table, note_sequence, store_table, with_rows. cbn [db_tables tbl_name].
      rewrite Hn. apply lookup_insert_eq.
    + intros x Hx Ex. pose proof (next_rowid_above 0 _ x id Hx Ex). unfold id in *. lia.
Qed.



(** [execute_query] in one equation: what it returns and the world it
    leaves, by what the engine makes of the text. *)
Lemma execute_query_eq (q : string) (params : option (list pyval)) (w : world) :
  execute_query q params w
  = let ps := if truthy (default [] params) then default [] params else [] in
    let closed db :=
      {| store_file := Some db; data_dir := data_dir w;
         trace := trace w ++ [Connect (connections_opened (trace w));
                              Close (connections_opened (trace w))] |} in
    match prepare q with
    | None => (Raise (OperationalError "syntax error"), after_connect w)
    | Some s =>
        match compile (contents w) s with
        | inl e => (Raise (OperationalError (error_message e)), after_connect w)
        | inr run =>
            if negb (Nat.eqb (length ps) (placeholders s))
            then (Raise (ProgrammingError (bindings_message (placeholders s) (length ps))),
                  after_connect w)
            else match run (map adapt ps) with
                 | Failed e => (Raise (IntegrityError (error_message e)), after_connect w)
                 | Changed db' => (Return [], closed db')
                 | Rows names rows => (Return (map (map to_py) rows), closed (contents w))
                 end
        end
    end.
Proof.
  unfold execute_query, bind. rewrite connect_eq. cbv zeta.
  assert (E : forall ps,
    (let (r, w') :=
       cursor_execute {| conn_id := connections_opened (trace w); conn_view := contents w;
                         conn_in_transaction := false |} q ps (after_connect w) in
     match r with
     | Return a =>
         (let (conn, cursor) := a in
          fun w0 =>
            let (r0, w'0) := commit conn w0 in
            match r0 with
            | Return a0 =>
                let (r1, w'1) := close a0 w'0 in
                match r1 with
                | Return _ => ret (map (map to_py) (fetchall cursor)) w'1
                | Raise e => (Raise e, w'1)
                end
            | Raise e => (Raise e, w'0)
            end) w'
     | Raise e => (Raise e, w')
     end)
    = match prepare q with
      | None => (Raise (OperationalError "syntax error"), after_connect w)
      | Some s =>
          match compile (contents w) s with
          | inl e => (Raise (OperationalError (error_message e)), after_connect w)
          | inr run =>
              if negb (Nat.eqb (length ps) (placeholders s))
              then (Raise (ProgrammingError (bindings_message (placeholders s) (length ps))),
                    after_connect w)
              else match run (map adapt ps) with
                   | Failed e => (Raise (IntegrityError (error_message e)), after_connect w)
                   | Changed db' =>
                       (Return [],
                        {| store_file := Some db'; data_dir := data_dir w;
                           trace := trace w ++ [Connect (connections_opened (trace w));
                                                Close (connections_opened (trace w))] |})
                   | Rows names rows =>
                       (Return (map (map to_py) rows),
                        {| store_file := Some (contents w); data_dir := data_dir w;
                           trace := trace w ++ [Connect (connections_opened (trace w));
                                                Close (connections_opened (trace w))] |})
                   end
          end
      end).
  { intros ps. unfold cursor_execute. destruct (prepare q) as [s|]; [|reflexivity].
    unfold execute_stmt. cbn [conn_view conn_id conn_in_transaction].
    destruct (compile (contents w) s) as [e|run]; [reflexivity|].
    destruct (negb _); [reflexivity|].
    destruct (run (map adapt ps)) as [e|db'|names rows]; [reflexivity| |].
    - rewrite orb_false_r. unfold bind, commit, close, log, write_store, ret, after_connect.
      destruct (opens_transaction s); simpl; now rewrite <- app_assoc.
    - unfold bind, commit, close, log, write_store, ret, after_connect. simpl.
      now rewrite <- app_assoc. }
  destruct (truthy (default [] params)); apply E.
Qed.

Lemma insert_row_tables (db : database) (t : table) names ps db' :
  insert_row db t names ps = Changed db' ->
  exists t', db_tables db' = <[lower (tbl_name t) := t']> (db_tables db).
Proof.
  unfold insert_row.
  destruct (rowid_column (tbl_columns t)) as [[k a]|].
  - destruct (field k _) as [|z|s]; [| |discriminate].
    + intros [= <-]. unfold note_sequence. destruct a; simpl; eauto.
    + destruct (rowid_used _ _ _); [discriminate|].
      intros [= <-]. unfold note_sequence. destruct a; simpl; eauto.
  - intros [= <-]. simpl. eauto.
Qed.

Lemma compile_insert_inv (db : database) name names marks run :
  compile db (InsertInto name names marks) = inr run ->
  exists t, find_table db name = Some t /\ run = insert_row db t names.
Proof.
  unfold compile. destruct (find_table db name) as [t|]; [|discriminate].
  destruct (first_missing _ _); [discriminate|].
  destruct (Nat.eqb _ _); [|discriminate].
  intros [= <-]. eauto.
Qed.

(** X14: the Add Food Listing form changes no table but FoodListings:
    with or without a click, and whether the insert succeeds or raises,
    every other table of the store is what it was. *)
Theorem add_food_listing_touches_only_listings
    (f : St.listing_form) (w : world) (other : string) :
  (forall t, find_table (contents w) "FoodListings" = Some t ->
             lower (tbl_name t) = lower "FoodListings") ->
  lower other <> lower "FoodListings" ->
  find_table (contents (snd (add_food_listing f w))) other = find_table (contents w) other.
Proof.
  intros Hn Ho. destruct (add_food_listing_reads f w) as (w4 & C & _ & _ & E).
  rewrite E. destruct (St.add_listing_clicked f); [|now rewrite <- C].
  unfold bind. rewrite execute_query_eq, prepare_insert_listing. cbv zeta.
  rewrite C.
  destruct (compile (contents w) _) as [e|run] eqn:Ec; [now rewrite <- C|].
  destruct (negb _); [now rewrite <- C|].
  destruct (run _) as [e|db'|names rows] eqn:Er; [now rewrite <- C| |reflexivity].
  destruct (compile_insert_inv _ _ _ _ _ Ec) as (t & Ef & ->).
  destruct (insert_row_tables _ _ _ _ _ Er) as [t' Et].
  unfold St.success, St.render, log, find_table, contents. simpl.
  rewrite Et, lookup_insert_ne; [reflexivity|].
  rewrite (Hn t Ef). congruence.
Qed.

Lemma add_food_listing_touches_only_listings_witness :
  find_table (contents (snd (add_food_listing (apple_form true) seeded))) "Claims"
  = find_table (contents seeded) "Claims".
Proof.
  apply (add_food_listing_touches_only_listings (apple_form true) seeded "Claims").
  - intros t. vm_compute. intros [= <-]. reflexivity.
  - vm_compute. discriminate.
Defined.




(** *** The options of the form after a listing was added *)

Lemma value_eqb_eq (a b : value) : value_eqb a b = true <-> a = b.
Proof.
  destruct a, b; simpl; split; try discriminate; try reflexivity.
  - intros H. apply Z.eqb_eq in H. now subst.
  - intros [= ->]. apply Z.eqb_refl.
  - intros H. apply String.eqb_eq in H. now subst.
  - intros [= ->]. apply String.eqb_refl.
Qed.

Lemma value_eqb_sym (a b : value) : value_eqb a b = value_eqb b a.
Proof.
  destruct (value_eqb a b) eqn:E.
  - apply value_eqb_eq in E. subst. symmetry. now apply value_eqb_eq.
  - destruct (value_eqb b a) eqn:E'; [|reflexivity].
    apply value_eqb_eq in E'. subst.
    assert (value_eqb a a = true) by now apply value_eqb_eq. congruence.
Qed.

Lemma distinct_snoc (l : list value) (x : value) :
  distinct (l ++ [x]) = (distinct l ++ if existsb (value_eqb x) l then [] else [x])%list.
Proof.
  induction l as [|a l IH]; [reflexivity|].
  simpl. rewrite IH, List.filter_app. f_equal. f_equal.
  rewrite (value_eqb_sym x a).
  destruct (existsb (value_eqb x) l); [now rewrite orb_true_r|].
  rewrite orb_false_r. simpl. now destruct (value_eqb a x).
Qed.

Lemma distinct_subset (l : list value) (v : value) : In v (distinct l) -> In v l.
Proof.
  induction l as [|a l IH]; [contradiction|].
  simpl. intros [->|H]; [now left|].
  apply List.filter_In in H as [H _]. right. now apply IH.
Qed.

Lemma distinct_nil (l : list value) : distinct l = [] -> l = [].
Proof. destruct l; [reflexivity | discriminate]. Qed.

Lemma adapt_to_py (v : value) : adapt (to_py v) = v.
Proof. now destruct v. Qed.

Lemma selectbox_in {A : Type} (none : A) (options : list A) (picked : nat) :
  options <> [] -> In (St.selectbox none options picked) options.
Proof.
  intros Hne. unfold St.selectbox.
  destruct (Nat.lt_ge_cases picked (length options)) as [H|H].
  - now apply nth_In.
  - rewrite nth_overflow by exact H. destruct options; [congruence | now left].
Qed.

Lemma options_of_listings (db : database) (t : table) (column : string) (i : nat) :
  find_table db "FoodListings" = Some t ->
  column_index (tbl_columns t) column = Some i ->
  existing_values db "FoodListings" column = map to_py (distinct (map (field i) (tbl_rows t))).
Proof. intros Hf Hi. unfold existing_values. now rewrite Hf, Hi. Qed.

(** Storing a value picked among the values a text column already holds
    adds no new value to that column. *)
Lemma picked_value_is_known (col : list value) (picked : nat) :
  col <> [] ->
  (forall v z, In v col -> v <> VInt z) ->
  distinct (col ++ [apply_affinity TEXT
                      (adapt (St.selectbox PyNone (map to_py (distinct col)) picked))])
  = distinct col.
Proof.
  intros Hne Htext.
  assert (Hd : map to_py (distinct col) <> []).
  { intros E. apply map_eq_nil in E. apply distinct_nil in E. contradiction. }
  pose proof (selectbox_in PyNone _ picked Hd) as Hin.
  apply in_map_iff in Hin as (v & <- & Hv).
  apply distinct_subset in Hv. rewrite adapt_to_py.
  assert (Ha : apply_affinity TEXT v = v).
  { destruct v as [|z|s]; try reflexivity. now destruct (Htext _ z Hv). }
  rewrite Ha, distinct_snoc.
  assert (Hx : existsb (value_eqb v) col = true).
  { apply existsb_exists. exists v. split; [exact Hv | now apply value_eqb_eq]. }
  rewrite Hx. apply app_nil_r.
Qed.

Lemma food_type_options_eq (w : world) :
  fst (food_type_options w)
  = Return (or_else (existing_values (contents w) "FoodListings" "Food_Type")
              [PyStr "Vegetable"; PyStr "Grain"]).
Proof.
  unfold food_type_options.
  now rewrite (bind_fst_return _ _ (existing_values (contents w) "FoodListings" "Food_Type"))
    by (now apply get_unique_values_existing).
Qed.

Lemma meal_type_options_eq (w : world) :
  fst (meal_type_options w)
  = Return (or_else (existing_values (contents w) "FoodListings" "Meal_Type")
              [PyStr "Breakfast"; PyStr "Lunch"; PyStr "Dinner"]).
Proof.
  unfold meal_type_options.
  now rewrite (bind_fst_return _ _ (existing_values (contents w) "FoodListings" "Meal_Type"))
    by (now apply get_unique_values_existing).
Qed.

Lemma or_else_found {A : Type} (xs fallback : list A) : xs <> [] -> or_else xs fallback = xs.
Proof. destruct xs; [congruence | reflexivity]. Qed.

(** The store a submitted form leaves, on the table the seed write created. *)
Lemma added_listing_store (f : St.listing_form) (w : world) (t : table) :
  St.add_listing_clicked f = true ->
  find_table (contents w) "FoodListings" = Some t ->
  tbl_name t = "FoodListings" ->
  tbl_columns t = frame_schema food_listings ->
  find_table (contents (snd (add_food_listing f w))) "FoodListings"
  = Some (with_rows t (tbl_rows t ++ [VNull :: stored_fields (submitted f (contents w))])).
Proof.
  intros Hclick Hf Hn Hc.
  destruct (add_food_listing_runs f w t Hclick Hf Hc) as (w' & E & C).
  rewrite E. cbn [snd]. rewrite C.
  unfold submitted. rewrite unkeyed_listing_row.
  unfold find_table, store_table, with_rows. cbn [db_tables tbl_name].
  rewrite Hn. apply lookup_insert_eq.
Qed.

(** X16: once FoodListings holds a row, adding listings through the form
    never changes the choices the form offers: on a store whose
    FoodListings table is the one the seed write created and holds no
    integer as food type or meal type, the food-type and meal-type options
    after a submitted form are the options before it. *)
Theorem form_options_are_frozen (f : St.listing_form) (w : world) (t : table) :
  St.add_listing_clicked f = true ->
  find_table (contents w) "FoodListings" = Some t ->
  tbl_name t = "FoodListings" ->
  tbl_columns t = frame_schema food_listings ->
  tbl_rows t <> [] ->
  (forall r z, In r (tbl_rows t) -> field 7 r <> VInt z /\ field 8 r <> VInt z) ->
  fst (food_type_options (snd (add_food_listing f w))) = fst (food_type_options w)
  /\ fst (meal_type_options (snd (add_food_listing f w))) = fst (meal_type_options w).
Proof.
  intros Hclick Hf Hn Hc Hrows Htext.
  pose proof (added_listing_store f w t Hclick Hf Hn Hc) as Hs.
  assert (H7 : column_index (tbl_columns t) "Food_Type" = Some 7%nat) by now rewrite Hc.
  assert (H8 : column_index (tbl_columns t) "Meal_Type" = Some 8%nat) by now rewrite Hc.
  assert (Hne : forall i, map (field i) (tbl_rows t) <> []).
  { intros i E. apply map_eq_nil in E. contradiction. }
  assert (Hd : forall i, map to_py (distinct (map (field i) (tbl_rows t))) <> []).
  { intros i E. apply map_eq_nil in E. apply distinct_nil in E. now apply Hne in E. }
  rewrite !food_type_options_eq, !meal_type_options_eq.
  rewrite (options_of_listings _ _ "Food_Type" 7 Hs H7).
  rewrite (options_of_listings _ _ "Meal_Type" 8 Hs H8).
  rewrite (options_of_listings _ _ "Food_Type" 7 Hf H7).
  rewrite (options_of_listings _ _ "Meal_Type" 8 Hf H8).
  unfold with_rows. cbn [tbl_rows]. rewrite !map_app.
  unfold submitted, stored_fields. cbn [map field nth adapt].
  rewrite (options_of_listings _ _ "Food_Type" 7 Hf H7).
  rewrite (options_of_listings _ _ "Meal_Type" 8 Hf H8).
  rewrite ?(or_else_found _ _ (Hd 7%nat)), ?(or_else_found _ _ (Hd 8%nat)).
  rewrite !picked_value_is_known; try apply Hne.
  - rewrite ?(or_else_found _ _ (Hd 7%nat)), ?(or_else_found _ _ (Hd 8%nat)).
    split; reflexivity.
  - intros v z Hv. apply in_map_iff in Hv as (r & <- & Hr). apply (Htext r z Hr).
  - intros v z Hv. apply in_map_iff in Hv as (r & <- & Hr). apply (Htext r z Hr).
Qed.

Lemma form_options_are_frozen_witness :
  fst (food_type_options (snd (add_food_listing (apple_form true) seeded)))
  = fst (food_type_options seeded)
  /\ fst (meal_type_options (snd (add_food_listing (apple_form true) seeded)))
     = fst (meal_type_options seeded).
Proof.
  assert (F : exists t, find_table (contents seeded) "FoodListings" = Some t
                        /\ tbl_name t = "FoodListings"
                        /\ tbl_columns t = frame_schema food_listings
                        /\ tbl_rows t = seed_listings).
  { vm_compute. eexists. repeat split. }
  destruct F as (t & Hf & Hn & Hc & Hr).
  apply (form_options_are_frozen (apple_form true) seeded t eq_refl Hf Hn Hc).
  - rewrite Hr. discriminate.
  - rewrite Hr. intros r z [<-|[<-|[]]]; split; discriminate.
Defined.

Lemma picked_text_is_stored (options : list pyval) (picked : nat) :
  options <> [] ->
  (forall x, In x options -> exists s, x = PyStr s) ->
  to_py (apply_affinity TEXT (adapt (St.selectbox PyNone options picked)))
  = St.selectbox PyNone options picked.
Proof.
  intros Hne Hs. destruct (Hs _ (selectbox_in PyNone options picked Hne)) as [s ->].
  reflexivity.
Qed.

(** X17: the fallback choices are offered only until the first listing
    exists: on a store whose FoodListings table has the columns
    [create_database] declares and holds no row, the form offers Vegetable
    and Grain, and Breakfast, Lunch and Dinner; after one submitted form it
    offers only the food type and the meal type of that listing. *)
Theorem fallback_options_vanish (f : St.listing_form) (w : world) (t : table) :
  St.add_listing_clicked f = true ->
  find_table (contents w) "FoodListings" = Some t ->
  tbl_name t = "FoodListings" ->
  tbl_columns t = declared_listing_schema ->
  tbl_rows t = [] ->
  fst (food_type_options w) = Return [PyStr "Vegetable"; PyStr "Grain"]
  /\ fst (meal_type_options w) = Return [PyStr "Breakfast"; PyStr "Lunch"; PyStr "Dinner"]
  /\ fst (food_type_options (snd (add_food_listing f w)))
     = Return [St.selectbox PyNone [PyStr "Vegetable"; PyStr "Grain"] (St.food_type_picked f)]
  /\ fst (meal_type_options (snd (add_food_listing f w)))
     = Return [St.selectbox PyNone [PyStr "Breakfast"; PyStr "Lunch"; PyStr "Dinner"]
                 (St.meal_type_picked f)].
Proof.
  intros Hclick Hf Hn Hc Hrows.
  destruct (declared_schema_insert f w t Hclick Hf Hn Hc) as (id & w' & E & Hs & _ & _).
  rewrite E. cbn [snd].
  assert (H7 : column_index (tbl_columns t) "Food_Type" = Some 7%nat) by now rewrite Hc.
  assert (H8 : column_index (tbl_columns t) "Meal_Type" = Some 8%nat) by now rewrite Hc.
  rewrite !food_type_options_eq, !meal_type_options_eq.
  rewrite (options_of_listings _ _ "Food_Type" 7 Hs H7).
  rewrite (options_of_listings _ _ "Meal_Type" 8 Hs H8).
  rewrite (options_of_listings _ _ "Food_Type" 7 Hf H7).
  rewrite (options_of_listings _ _ "Meal_Type" 8 Hf H8).
  unfold with_rows. cbn [tbl_rows]. rewrite Hrows.
  unfold submitted, stored_fields. cbn [map field nth adapt app distinct List.filter].
  rewrite (options_of_listings _ _ "Food_Type" 7 Hf H7).
  rewrite (options_of_listings _ _ "Meal_Type" 8 Hf H8).
  rewrite Hrows. cbn [map distinct or_else truthy].
  rewrite !picked_text_is_stored; try discriminate.
  - repeat split; reflexivity.
  - intros x [<-|[<-|[<-|[]]]]; eauto.
  - intros x [<-|[<-|[]]]; eauto.
Qed.

Lemma fallback_options_vanish_witness :
  fst (food_type_options (snd (add_food_listing (apple_form true)
                                 (snd (create_database first_launch)))))
  = Return [PyStr "Vegetable"].
Proof.
  assert (F : exists t, find_table (contents (snd (create_database first_launch))) "FoodListings"
                        = Some t
                        /\ tbl_name t = "FoodListings"
                        /\ tbl_columns t = declared_listing_schema /\ tbl_rows t = []).
  { vm_compute. eexists. repeat split. }
  destruct F as (t & Hf & Hn & Hc & Hr).
  destruct (fallback_options_vanish (apple_form true) (snd (create_database first_launch)) t
              eq_refl Hf Hn Hc Hr) as (_ & _ & H & _).
  rewrite H. reflexivity.
Defined.

(** *** Creating the schema *)

Lemma execute_create_if_absent (conn : connection) (name : string) (cols : list column)
    (w : world) :
  conn_in_transaction conn = false ->
  (primary_keys cols <= 1)%nat ->
  execute_stmt conn (CreateTable true name cols) [] w
  = (Return ({| conn_id := conn_id conn;
                conn_view := ensure_table (conn_view conn) name cols;
                conn_in_transaction := false |},
             {| description := None; fetchall := [] |}),
     {| store_file := Some (ensure_table (conn_view conn) name cols);
        data_dir := data_dir w; trace := trace w |}).
Proof.
  intros Ht Hk. unfold execute_stmt, ensure_table. cbn [compile].
  destruct (find_table (conn_view conn) name) as [t|].
  - simpl. rewrite Ht. reflexivity.
  - destruct (Nat.ltb_spec 1 (primary_keys cols)) as [H|_]; [lia|].
    simpl. rewrite Ht. reflexivity.
Qed.

Lemma create_database_eq (w : world) :
  create_database w
  = (Return tt,
     {| store_file := Some (with_declared_tables (contents w));
        data_dir := data_dir w;
        trace := trace w ++ [Connect (connections_opened (trace w));
                             Close (connections_opened (trace w))] |}).
Proof.
  unfold create_database. unfold bind at 1. rewrite connect_eq.
  unfold cursor_execute.
  repeat match goal with
         | |- context [prepare ?s] =>
             let r := eval vm_compute in (prepare s) in
             change (prepare s) with r
         end.
  cbv iota beta.
  unfold bind at 1.
  rewrite execute_create_if_absent by (try reflexivity; simpl; lia).
  unfold bind at 1.
  rewrite execute_create_if_absent by (try reflexivity; simpl; lia).
  unfold bind at 1.
  rewrite execute_create_if_absent by (try reflexivity; simpl; lia).
  unfold bind at 1.
  rewrite execute_create_if_absent by (try reflexivity; simpl; lia).
  unfold bind, commit, close, log, ret, with_declared_tables, after_connect. simpl.
  now rewrite <- app_assoc.
Qed.

Lemma ensure_table_keeps (db : database) (name : string) (cols : list column) other t :
  find_table db other = Some t ->
  find_table (ensure_table db name cols) other = Some t.
Proof.
  intros H. unfold ensure_table.
  destruct (find_table db name) eqn:E; [exact H|].
  unfold find_table, store_table in *. simpl.
  rewrite lookup_insert_ne; [exact H|]. congruence.
Qed.

Lemma ensure_table_exists (db : database) (name : string) (cols : list column) :
  is_Some (find_table (ensure_table db name cols) name).
Proof.
  unfold ensure_table. destruct (find_table db name) eqn:E; [rewrite E; eauto|].
  unfold find_table, store_table. simpl. rewrite lookup_insert_eq. eauto.
Qed.

Lemma ensure_table_present (db : database) (name : string) (cols : list column) :
  is_Some (find_table db name) -> ensure_table db name cols = db.
Proof. unfold ensure_table. now intros [t ->]. Qed.

Lemma is_Some_ensure_keeps (db : database) (name : string) (cols : list column) other :
  is_Some (find_table db other) -> is_Some (find_table (ensure_table db name cols) other).
Proof. intros [t H]. rewrite (ensure_table_keeps _ _ _ _ _ H). eauto. Qed.

(** X18: [create_database] never raises and never touches a table that
    exists: on every store it returns normally with its connection closed,
    every table the store had is what it was, and afterwards the tables
    Providers, Receivers, FoodListings and Claims all exist. *)
Theorem create_database_keeps_existing_tables (w : world) :
  fst (create_database w) = Return tt
  /\ trace (snd (create_database w))
     = (trace w ++ [Connect (connections_opened (trace w));
                    Close (connections_opened (trace w))])%list
  /\ (forall name t, find_table (contents w) name = Some t ->
        find_table (contents (snd (create_database w))) name = Some t)
  /\ (forall name, In name viewable_tables ->
        is_Some (find_table (contents (snd (create_database w))) name)).
Proof.
  rewrite create_database_eq. cbn [fst snd trace]. split; [reflexivity|]. split; [reflexivity|].
  unfold contents at 2 3. cbn [store_file default]. unfold with_declared_tables. split.
  - intros name t H. now do 4 apply ensure_table_keeps.
  - intros name [<-|[<-|[<-|[<-|[]]]]].
    + do 3 apply is_Some_ensure_keeps. apply ensure_table_exists.
    + do 2 apply is_Some_ensure_keeps. apply ensure_table_exists.
    + apply is_Some_ensure_keeps. apply ensure_table_exists.
    + apply ensure_table_exists.
Qed.

(** X19: [create_database] is idempotent on every store: running it a
    second time leaves the store the first run left. *)
Theorem create_database_idempotent (w : world) :
  contents (snd (create_database (snd (create_database w))))
  = contents (snd (create_database w)).
Proof.
  rewrite !create_database_eq. cbn [snd]. unfold contents. cbn [store_file default].
  set (db := default empty_db (store_file w)).
  unfold with_declared_tables at 1.
  assert (P : is_Some (find_table (with_declared_tables db) "Providers")).
  { unfold with_declared_tables. do 3 apply is_Some_ensure_keeps. apply ensure_table_exists. }
  assert (R : is_Some (find_table (with_declared_tables db) "Receivers")).
  { unfold with_declared_tables. do 2 apply is_Some_ensure_keeps. apply ensure_table_exists. }
  assert (F : is_Some (find_table (with_declared_tables db) "FoodListings")).
  { unfold with_declared_tables. apply is_Some_ensure_keeps. apply ensure_table_exists. }
  assert (C : is_Some (find_table (with_declared_tables db) "Claims")).
  { unfold with_declared_tables. apply ensure_table_exists. }
  rewrite (ensure_table_present _ "Providers" _ P).
  rewrite (ensure_table_present _ "Receivers" _ R).
  rewrite (ensure_table_present _ "FoodListings" _ F).
  now rewrite (ensure_table_present _ "Claims" _ C).
Qed.

(** X20: on a store without FoodListings table, [create_database] creates
    the table without rows and with Listing_ID as its AUTOINCREMENT integer
    primary key. *)
Theorem create_database_declares_key (w : world) :
  find_table (contents w) "FoodListings" = None ->
  find_table (contents (snd (create_database w))) "FoodListings"
  = Some {| tbl_name := "FoodListings"; tbl_columns := declared_listing_schema;
            tbl_rows := [] |}
  /\ rowid_column declared_listing_schema = Some (0%nat, true).
Proof.
  intros H. rewrite create_database_eq. cbn [snd]. unfold contents at 1.
  cbn [store_file default]. split; [|reflexivity].
  unfold with_declared_tables.
  apply ensure_table_keeps.
  assert (N : find_table
                (ensure_table
                   (ensure_table (contents w) "Providers" (declared_party_schema "Provider_ID"))
                   "Receivers" (declared_party_schema "Receiver_ID")) "FoodListings" = None).
  { unfold ensure_table.
    destruct (find_table (contents w) "Providers");
      [|unfold find_table at 1, store_table; simpl];
      destruct (find_table _ "Receivers"); unfold find_table, store_table in *; simpl;
      rewrite ?lookup_insert_ne by discriminate; exact H. }
  unfold ensure_table at 1. rewrite N.
  unfold find_table, store_table. simpl. apply lookup_insert_eq.
Qed.

Lemma create_database_declares_key_witness :
  find_table (contents (snd (create_database first_launch))) "FoodListings"
  = Some {| tbl_name := "FoodListings"; tbl_columns := declared_listing_schema;
            tbl_rows := [] |}.
Proof. exact (proj1 (create_database_declares_key first_launch eq_refl)). Defined.

(** *** Writing the seed frames *)

Lemma store_table_twice (db : database) (t t' : table) :
  tbl_name t' = tbl_name t ->
  store_table (store_table db t) t' = store_table db t'.
Proof.
  intros H. unfold store_table. simpl. rewrite H. now rewrite insert_insert_eq.
Qed.

Lemma insert_rows_eq (db0 : database) (names : list string) (rows : list (list pyval)) :
  forall (conn : connection) (t : table) (w : world),
    conn_view conn = store_table db0 t ->
    rowid_column (tbl_columns t) = None ->
    first_missing (tbl_columns t) names = None ->
    forallb (fun r => Nat.eqb (length r) (length names)) rows = true ->
    insert_rows conn (InsertInto (tbl_name t) names (length names)) rows w
    = (Return {| conn_id := conn_id conn;
                 conn_view := store_table db0
                   (with_rows t (tbl_rows t
                      ++ map (fun r => map (supplied names (map adapt r)) (tbl_columns t)) rows));
                 conn_in_transaction := (truthy rows || conn_in_transaction conn)%bool |},
       w).
Proof.
  induction rows as [|r rows IH]; intros conn t w Hv Hk Hm Hl.
  - simpl. unfold ret. destruct conn as [i v b], t as [n c rs]. simpl in *.
    subst v. unfold with_rows. simpl. now rewrite app_nil_r.
  - simpl in Hl. apply andb_prop in Hl as [Hr Hl]. apply Nat.eqb_eq in Hr.
    cbn [insert_rows]. unfold bind at 1. unfold execute_stmt. cbn [compile].
    rewrite Hv.
    assert (Hf : find_table (store_table db0 t) (tbl_name t) = Some t).
    { unfold find_table, store_table. simpl. apply lookup_insert_eq. }
    rewrite Hf, Hm, Nat.eqb_refl. cbn [placeholders]. rewrite Hr, Nat.eqb_refl.
    cbn [negb]. unfold insert_row. rewrite Hk.
    cbn [opens_transaction orb]. unfold bind, ret.
    rewrite store_table_twice by reflexivity.
    rewrite (IH _ (with_rows t (tbl_rows t ++ [map (supplied names (map adapt r)) (tbl_columns t)])))
      by (try reflexivity; assumption).
    unfold with_rows. cbn [tbl_name tbl_columns tbl_rows conn_id conn_in_transaction].
    rewrite <- app_assoc, orb_true_r. reflexivity.
Qed.

Lemma no_rowid_no_key (cols : list column) :
  rowid_column cols = None -> primary_keys cols = O.
Proof.
  unfold primary_keys. induction cols as [|c cs IH]; [reflexivity|].
  simpl. destruct (col_rowid c); [discriminate|].
  destruct (rowid_column cs) as [[i a]|]; [discriminate|]. intros _. now apply IH.
Qed.

Lemma to_sql_replace_eq (df : dataframe) (name : string) (conn : connection) (w : world) :
  conn_in_transaction conn = false ->
  (forall t, find_table (conn_view conn) name = Some t -> tbl_name t = name) ->
  rowid_column (frame_schema df) = None ->
  first_missing (frame_schema df) (df_columns df) = None ->
  rectangular df = true ->
  to_sql_replace df name conn w
  = (Return {| conn_id := conn_id conn;
               conn_view := replace_table (conn_view conn) name df;
               conn_in_transaction := false |},
     {| store_file := Some (replace_table (conn_view conn) name df);
        data_dir := data_dir w; trace := trace w |}).
Proof.
  intros Ht Hn Hk Hm Hr. unfold to_sql_replace.
  assert (Hp : (1 <? primary_keys (frame_schema df))%nat = false).
  { now rewrite (no_rowid_no_key _ Hk). }
  set (db := conn_view conn) in *.
  set (t0 := {| tbl_name := name; tbl_columns := frame_schema df; tbl_rows := [] |}).
  assert (Step : forall (c : connection) (x : world) (db1 : database),
             conn_view c = db1 -> conn_in_transaction c = false ->
             find_table db1 name = None ->
             (let* (conn2, _) := execute_stmt c (CreateTable false name (frame_schema df)) [] in
              let* conn3 :=
                insert_rows conn2 (InsertInto name (df_columns df) (length (df_columns df)))
                  (df_rows df) in
              commit conn3) x
             = (Return {| conn_id := conn_id c;
                          conn_view := store_table db1 (frame_table name df);
                          conn_in_transaction := false |},
                {| store_file := Some (store_table db1 (frame_table name df));
                   data_dir := data_dir x; trace := trace x |})).
  { intros c x db1 Hv Hc Hf. unfold bind at 1. unfold execute_stmt. cbn [compile].
    rewrite Hv, Hf, Hp. cbn [placeholders length Nat.eqb negb map opens_transaction orb].
    rewrite Hc. unfold bind at 1. unfold write_store, ret. unfold bind at 1.
    rewrite (insert_rows_eq db1 (df_columns df) (df_rows df) _ t0)
      by (try reflexivity; assumption).
    unfold commit, bind, write_store, ret, frame_table, with_rows, t0.
    cbn [conn_in_transaction conn_view conn_id tbl_name tbl_columns tbl_rows app orb].
    destruct (truthy (df_rows df)) eqn:E; [reflexivity|].
    destruct (df_rows df); [reflexivity | discriminate]. }
  destruct (find_table db name) as [t|] eqn:Ef.
  - rewrite (Hn t eq_refl), String.eqb_refl.
    unfold bind at 1. unfold bind at 1. unfold execute_stmt at 1. cbn [compile].
    fold db. rewrite Ef. cbn [placeholders length Nat.eqb negb map opens_transaction orb].
    rewrite Ht. unfold bind at 1. unfold write_store, ret.
    rewrite (Step _ _ {| db_tables := delete (lower name) (db_tables db);
                         db_sequence := delete (lower name) (db_sequence db) |});
      try reflexivity.
    + unfold replace_table, store_table, frame_table. rewrite Ef. cbn.
      rewrite insert_delete_eq. reflexivity.
    + unfold find_table. cbn. apply lookup_delete_eq.
  - unfold bind at 1. unfold ret at 1.
    rewrite (Step conn w db); try reflexivity; try assumption.
    unfold replace_table, store_table, frame_table. now rewrite Ef.
Qed.

Lemma find_replace_eq (db : database) (name : string) (df : dataframe) :
  find_table (replace_table db name df) name = Some (frame_table name df).
Proof. unfold find_table, replace_table. simpl. apply lookup_insert_eq. Qed.

Lemma find_replace_ne (db : database) (name other : string) (df : dataframe) :
  lower other <> lower name ->
  find_table (replace_table db name df) other = find_table db other.
Proof.
  intros H. unfold find_table, replace_table. simpl.
  apply lookup_insert_ne. congruence.
Qed.

Lemma contents_of_file (db : database) (dir : bool) (events : list event) :
  contents {| store_file := Some db; data_dir := dir; trace := events |} = db.
Proof. reflexivity. Qed.

Lemma load_embedded_data_to_db_eq (w : world) :
  (forall name t, In name viewable_tables ->
                  find_table (contents w) name = Some t -> tbl_name t = name) ->
  load_embedded_data_to_db w
  = (Return tt,
     {| store_file := Some (with_seed_tables (contents w));
        data_dir := data_dir w;
        trace := trace w ++ [Connect (connections_opened (trace w));
                             Close (connections_opened (trace w))] |}).
Proof.
  intros Hn. unfold load_embedded_data_to_db. unfold bind at 1. rewrite connect_eq.
  unfold bind at 1.
  rewrite to_sql_replace_eq; try reflexivity;
    [| intros t; apply Hn; simpl; tauto].
  unfold bind at 1.
  rewrite to_sql_replace_eq; try reflexivity;
    [| cbn [conn_view]; intros t; rewrite find_replace_ne by discriminate;
       apply Hn; simpl; tauto].
  unfold bind at 1.
  rewrite to_sql_replace_eq; try reflexivity;
    [| cbn [conn_view]; intros t; rewrite !find_replace_ne by discriminate;
       apply Hn; simpl; tauto].
  unfold bind at 1.
  rewrite to_sql_replace_eq; try reflexivity;
    [| cbn [conn_view]; intros t; rewrite !find_replace_ne by discriminate;
       apply Hn; simpl; tauto].
  unfold bind, commit, close, log, ret, with_seed_tables, after_connect.
  cbn [conn_in_transaction conn_view conn_id store_file data_dir trace].
  unfold bind. cbn [conn_id store_file data_dir trace].
  rewrite <- ?app_assoc. reflexivity.
Qed.

(** X21: the seed write replaces, it does not add: on every store whose
    four tables, where present, carry the names the script spells,
    [load_embedded_data_to_db] returns normally with its connection closed,
    the four tables then hold exactly the seed rows whatever rows they held
    before, and every other table is what it was. *)
Theorem load_embedded_data_replaces_rows (w : world) :
  (forall name t, In name viewable_tables ->
                  find_table (contents w) name = Some t -> tbl_name t = name) ->
  fst (load_embedded_data_to_db w) = Return tt
  /\ trace (snd (load_embedded_data_to_db w))
     = (trace w ++ [Connect (connections_opened (trace w));
                    Close (connections_opened (trace w))])%list
  /\ table_rows (contents (snd (load_embedded_data_to_db w))) "Providers"
     = Some [[VInt 1; VText "Provider A"; VText "Restaurant"];
             [VInt 2; VText "Provider B"; VText "Supermarket"]]
  /\ table_rows (contents (snd (load_embedded_data_to_db w))) "Receivers"
     = Some [[VInt 1; VText "Receiver A"; VText "NGO"];
             [VInt 2; VText "Receiver B"; VText "Charity"]]
  /\ table_rows (contents (snd (load_embedded_data_to_db w))) "FoodListings"
     = Some seed_listings
  /\ table_rows (contents (snd (load_embedded_data_to_db w))) "Claims"
     = Some [[VInt 1; VInt 1; VInt 1; VText "2025-05-08"]]
  /\ (forall other, ~ In (lower other) (map lower viewable_tables) ->
        find_table (contents (snd (load_embedded_data_to_db w))) other
        = find_table (contents w) other).
Proof.
  intros Hn. rewrite (load_embedded_data_to_db_eq w Hn). cbn [fst snd trace].
  split; [reflexivity|]. split; [reflexivity|].
  rewrite !contents_of_file.
  unfold with_seed_tables, table_rows.
  split; [rewrite !find_replace_ne by discriminate; now rewrite find_replace_eq|].
  split; [rewrite !find_replace_ne by discriminate; now rewrite find_replace_eq|].
  split; [rewrite !find_replace_ne by discriminate; now rewrite find_replace_eq|].
  split; [now rewrite find_replace_eq|].
  intros other Ho. simpl in Ho.
  rewrite !find_replace_ne; [reflexivity| | | |]; intros E; apply Ho; rewrite E; tauto.
Qed.

Lemma load_embedded_data_replaces_rows_witness :
  table_rows (contents (snd (load_embedded_data_to_db
                               (snd (add_food_listing (apple_form true) seeded)))))
    "FoodListings"
  = Some seed_listings.
Proof.
  refine (proj1 (proj2 (proj2 (proj2 (proj2 (load_embedded_data_replaces_rows
            (snd (add_food_listing (apple_form true) seeded)) _)))))).
  intros name t [<-|[<-|[<-|[<-|[]]]]]; vm_compute; intros [= <-]; reflexivity.
Defined.

(** X22: the seed write leaves none of the four tables with a key: on
    every such store, after [load_embedded_data_to_db] each of Providers,
    Receivers, FoodListings and Claims has the columns of its seed frame
    and no integer primary key, whatever key the table was declared with
    before. *)
Theorem load_embedded_data_drops_keys (w : world) (name : string) :
  (forall n t, In n viewable_tables ->
               find_table (contents w) n = Some t -> tbl_name t = n) ->
  In name viewable_tables ->
  exists t,
    find_table (contents (snd (load_embedded_data_to_db w))) name = Some t
    /\ rowid_column (tbl_columns t) = None
    /\ tbl_name t = name.
Proof.
  intros Hn Hin. rewrite (load_embedded_data_to_db_eq w Hn). cbn [snd].
  rewrite contents_of_file. unfold with_seed_tables.
  destruct Hin as [<-|[<-|[<-|[<-|[]]]]]; eexists;
    (split; [rewrite ?find_replace_ne by discriminate; apply find_replace_eq|]);
    split; reflexivity.
Qed.

Lemma load_embedded_data_drops_keys_witness :
  exists t,
    find_table (contents (snd (load_embedded_data_to_db (snd (create_database first_launch)))))
      "FoodListings" = Some t
    /\ rowid_column (tbl_columns t) = None.
Proof.
  destruct (load_embedded_data_drops_keys (snd (create_database first_launch)) "FoodListings")
    as (t & H1 & H2 & _).
  - intros name t [<-|[<-|[<-|[<-|[]]]]]; vm_compute; intros [= <-]; reflexivity.
  - simpl. tauto.
  - exists t. split; assumption.
Defined.

(** *** Runs of [main] on an existing store *)

Lemma main_on_existing_store (s : St.session) (w : world) (db : database) :
  store_file w = Some db ->
  main s w
  = (let choice := St.selectbox "" menu (St.menu_picked s) in
     if String.eqb choice "Home" then
       St.write "Welcome to the Local Food Wastage Management System."
     else if String.eqb choice "View Data" then
       display_data (St.selectbox "" viewable_tables (St.table_picked s))
     else if String.eqb choice "Add Food Listing" then add_food_listing (St.form s)
     else if String.eqb choice "Food Listings" then display_food_listings
     else if String.eqb choice "SQL Queries" then
       display_sql_queries (St.query_entered s) (St.execute_clicked s)
     else if String.eqb choice "Food Wastage Chart" then display_food_wastage_by_type_chart
     else ret tt)
      {| store_file := Some db; data_dir := data_dir w;
         trace := trace w ++ [Render (Title "Local Food Wastage Management System")] |}.
Proof.
  intros Hs. unfold main. unfold bind at 1. unfold St.title, St.render, log at 1.
  unfold bind at 1. rewrite (bootstrap_skipped _ db) by exact Hs.
  cbn [store_file]. rewrite Hs. reflexivity.
Qed.

(** X24: browsing never changes the data: on an existing store, a run of
    [main] on the Home, View Data, Food Listings or Food Wastage Chart page
    leaves the store holding exactly what it held, whether or not the page
    raises. *)
Theorem main_read_pages_keep_store (s : St.session) (w : world) (db : database) :
  store_file w = Some db ->
  In (St.menu_picked s) [0; 1; 3; 5]%nat ->
  contents (run_script s w) = db.
Proof.
  intros Hs Hp. unfold run_script. rewrite (main_on_existing_store s w db Hs).
  destruct Hp as [<-|[<-|[<-|[<-|[]]]]]; cbv zeta;
    match goal with
    | |- context [St.selectbox "" menu ?n] =>
        let c := eval vm_compute in (St.selectbox "" menu n) in
        change (St.selectbox "" menu n) with c
    end;
    repeat match goal with
           | |- context [String.eqb ?a ?b] =>
               let c := eval vm_compute in (String.eqb a b) in
               change (String.eqb a b) with c
           end;
    cbv iota.
  - reflexivity.
  - now rewrite display_data_keeps_store.
  - now rewrite display_food_listings_keeps_store.
  - now rewrite chart_keeps_store.
Qed.

Lemma main_read_pages_keep_store_witness :
  contents (run_script (on_page 5 false) seeded) = contents seeded.
Proof.
  apply (main_read_pages_keep_store (on_page 5 false) seeded (contents seeded)).
  - vm_compute. reflexivity.
  - simpl. tauto.
Defined.
